(** * uni-finder: the university service and the comparison endpoint

    A shallow embedding of [src/lib/university-service.ts]
    ([UniversityService]) and of the handler of
    [src/app/api/universities/compare/route.ts] ([GET]), with the types of
    [@/types/university], followed by the pure parts of the page that calls
    them and of [src/lib/utils/helpers.ts].

    Conventions of the embedding.
    - A JavaScript [number] that the code only adds, subtracts, multiplies,
      divides and compares is a rational [Q]: exact, without NaN or the
      infinities (the request schema rejects NaN, and [limit >= 1] keeps the
      one division of the service away from zero).  Rounding of doubles is
      outside the model.  Values of [Q] are compared with [==], never with
      Leibniz equality, since [1#2] and [2#4] are the same number.
    - [T | null], [T | undefined] and an optional field are [option T].
    - An array is a [list]; [Array.prototype.filter] is [List.filter].
    - A [Promise] is the value it resolves to: no handler here suspends
      between two reads of shared state.
    - The catalog [universities] and [getFilterOptions] come from [@/lib/db],
      and [toLowerCase] / [localeCompare] from the JavaScript runtime;
      the development is parametric in the four of them. *)

From Stdlib Require Import List String Ascii Bool Arith ZArith QArith Qabs Qround Qminmax.
From Stdlib Require Import Permutation Sorted Lia Lqa.
Import ListNotations.

Local Open Scope string_scope.
Local Open Scope Q_scope.

(** ** Types of [@/types/university] *)

Inductive ResearchOutput := Low | Medium | High | VeryHigh.
Inductive CampusType := Urban | Suburban | Rural.

Definition ResearchOutput_eqb (a b : ResearchOutput) : bool :=
  match a, b with
  | Low, Low | Medium, Medium | High, High | VeryHigh, VeryHigh => true
  | _, _ => false
  end.

Definition CampusType_eqb (a b : CampusType) : bool :=
  match a, b with
  | Urban, Urban | Suburban, Suburban | Rural, Rural => true
  | _, _ => false
  end.

Record University := mkUniversity {
  id : string;
  name : string;
  country : string;
  city : string;
  state : option string;
  tuitionFee : Q;
  currency : string;
  ranking : option Q;
  establishedYear : Q;
  imageUrl : string;
  studentPopulation : Q;
  internationalStudents : Q;
  acceptanceRate : Q;
  graduationRate : Q;
  programs : list string;
  researchOutput : ResearchOutput;
  scholarshipAvailable : bool;
  avgScholarshipAmount : option Q;
  campusType : CampusType;
  housingAvailable : bool;
  employmentRate : Q;
  avgStartingSalary : option Q;
  website : string;
  description : string
}.

Inductive SortBy :=
| by_name | by_ranking | by_tuitionFee | by_establishedYear
| by_acceptanceRate | by_employmentRate.

Inductive SortOrder := asc | desc.

(** [UniversityFilters], the type inferred from [UniversityFiltersSchema]:
    every filter is optional, [page], [limit] and [sortOrder] have defaults
    and are always present after parsing. *)
Record UniversityFilters := mkFilters {
  search : option string;
  countries : option (list string);
  cities : option (list string);
  minTuition : option Q;
  maxTuition : option Q;
  minRanking : option Q;
  maxRanking : option Q;
  minYear : option Q;
  maxYear : option Q;
  f_programs : option (list string);
  minAcceptanceRate : option Q;
  maxAcceptanceRate : option Q;
  campusTypes : option (list CampusType);
  scholarshipOnly : option bool;
  minEmploymentRate : option Q;
  f_researchOutput : option (list ResearchOutput);
  page : Q;
  limit : Q;
  sortBy : option SortBy;
  sortOrder : SortOrder
}.

Record FilterOptions := mkFilterOptions {
  fo_countries : list string;
  fo_cities : list string;
  fo_programs : list string
}.

Record Pagination := mkPagination {
  total : nat;
  p_page : Q;
  p_limit : Q;
  totalPages : Z
}.

Record PaginatedResponse := mkPaginatedResponse {
  data : list University;
  pagination : Pagination;
  filters : FilterOptions
}.

Record ComparisonMetrics := mkComparisonMetrics {
  tuitionDifference : Q;
  rankingDifference : option Q;
  acceptanceRateDifference : Q;
  employmentRateDifference : Q
}.

Record UniversityComparison := mkUniversityComparison {
  c_universities : University * University;
  comparison : ComparisonMetrics
}.

(** What a handler hands to [NextResponse.json]: a body and a status. *)
Inductive Body :=
| ErrorBody (error : string)
| ComparisonBody (c : UniversityComparison).

Record Response := json { body : Body; status : Z }.

(** The error taxonomy of the HTTP boundary. *)
Definition InvalidArgument : Z := 400%Z.
Definition NotFound : Z := 404%Z.
Definition InternalError : Z := 500%Z.
Definition OK : Z := 200%Z.

(** ** JavaScript built-ins the service calls *)

(** [String.prototype.includes]: [sub] occurs in [s] as a contiguous run. *)
Fixpoint str_includes (s sub : string) : bool :=
  if String.prefix sub s then true
  else match s with
       | EmptyString => false
       | String _ s' => str_includes s' sub
       end.

(** [Array.prototype.includes] on strings and on the two enumerations. *)
Definition includes (l : list string) (x : string) : bool :=
  existsb (String.eqb x) l.

Definition includes_campus (l : list CampusType) (x : CampusType) : bool :=
  existsb (CampusType_eqb x) l.

Definition includes_research (l : list ResearchOutput) (x : ResearchOutput) : bool :=
  existsb (ResearchOutput_eqb x) l.

(** [Array.prototype.some]. *)
Definition some {A} (f : A -> bool) (l : list A) : bool := existsb f l.

(** Truthiness of a string ([Boolean(s)], [if (s)], [!s]) and of a number. *)
Definition truthy_string (s : string) : bool :=
  match s with EmptyString => false | _ => true end.

Definition truthy_number (q : Q) : bool := negb (Qeq_bool q 0).

(** [a >= b] and [a <= b] on numbers. *)
Definition geq (a b : Q) : bool := Qle_bool b a.
Definition leq (a b : Q) : bool := Qle_bool a b.

Definition MAX_SAFE_INTEGER : Q := 9007199254740991 # 1.

(** [String.prototype.split] with a one-character separator. *)
Fixpoint split (sep : ascii) (s : string) : list string :=
  match s with
  | EmptyString => [EmptyString]
  | String c s' =>
      if Ascii.eqb c sep then EmptyString :: split sep s'
      else match split sep s' with
           | [] => [String c EmptyString]
           | piece :: pieces => String c piece :: pieces
           end
  end.

(** [ToIntegerOrInfinity] on a finite number: truncation toward zero. *)
Definition ToIntegerOrInfinity (q : Q) : Z := Z.quot (Qnum q) (Zpos (Qden q)).

(** [Array.prototype.slice(start, end)]: both bounds are truncated, a
    negative bound counts from the end, and both are clamped to the length. *)
Definition relative_index (len rel : Z) : Z :=
  if (rel <? 0)%Z then Z.max (len + rel) 0 else Z.min rel len.

Definition slice {A} (l : list A) (start end_ : Q) : list A :=
  let len := Z.of_nat (List.length l) in
  let k := relative_index len (ToIntegerOrInfinity start) in
  let final := relative_index len (ToIntegerOrInfinity end_) in
  firstn (Z.to_nat (final - k)) (skipn (Z.to_nat k) l).

(** [Array.prototype.sort(cmp)].  The language requires the sort to be
    stable; for a consistent comparator the result is then determined, and
    it is the one this insertion sort computes: [x] goes before the first
    element it does not compare greater than. *)
Fixpoint sort_insert {A} (cmp : A -> A -> Q) (x : A) (l : list A) : list A :=
  match l with
  | [] => [x]
  | y :: l' => if Qle_bool (cmp x y) 0 then x :: y :: l'
               else y :: sort_insert cmp x l'
  end.

Definition sort {A} (cmp : A -> A -> Q) (l : list A) : list A :=
  fold_right (sort_insert cmp) [] l.

(** [Math.ceil] and [Math.abs]. *)
Definition Math_ceil (q : Q) : Z := Qceiling q.
Definition Math_abs (q : Q) : Q := Qabs q.

(** The numeric constraints of [UniversityFiltersSchema] ([.min], [.max]);
    the shape of the object is carried by the record type.  [currentYear] is
    [new Date().getFullYear()]. *)
Definition inRange (lo : Q) (hi : option Q) (o : option Q) : bool :=
  match o with
  | None => true
  | Some x => Qle_bool lo x && match hi with None => true | Some h => Qle_bool x h end
  end.

Definition UniversityFiltersSchema (currentYear : Q) (fs : UniversityFilters) : bool :=
  inRange 0 None (minTuition fs)
  && inRange 0 None (maxTuition fs)
  && inRange 1 None (minRanking fs)
  && inRange 1 None (maxRanking fs)
  && inRange (1000 # 1) (Some currentYear) (minYear fs)
  && inRange (1000 # 1) (Some currentYear) (maxYear fs)
  && inRange 0 (Some (100 # 1)) (minAcceptanceRate fs)
  && inRange 0 (Some (100 # 1)) (maxAcceptanceRate fs)
  && inRange 0 (Some (100 # 1)) (minEmploymentRate fs)
  && Qle_bool 1 (page fs)
  && Qle_bool 1 (limit fs) && Qle_bool (limit fs) (100 # 1).

(** ** The universities page and its components

    The pure parts of [src/app/universities/page.tsx],
    [src/components/features/FilterPanel.tsx] and
    [src/components/features/ComparisonModal.tsx], and two classifiers of
    [src/lib/utils/helpers.ts].  A React state variable is the value it
    holds; a handler is the function from the current value to the next.
    [pagination.page] and [pagination.totalPages] are whole numbers ([Z]):
    the page only ever asks for whole pages. *)

(** [Array.prototype.join] on strings. *)
Fixpoint join (sep : string) (l : list string) : string :=
  match l with
  | [] => ""
  | [x] => x
  | x :: rest => x ++ sep ++ join sep rest
  end.

(** No comma occurs in [s]. *)
Definition commaFree (s : string) : bool := negb (str_includes s ",").

(** [handleCompareSelect] of [page.tsx]: the next [selectedForComparison].
    In the last branch the selection holds two identifiers at least, so
    the default of [nth] is never read. *)
Definition handleCompareSelect (selectedForComparison : list string) (id : string)
  : list string :=
  if includes selectedForComparison id then
    filter (fun uid => negb (String.eqb uid id)) selectedForComparison
  else if (List.length selectedForComparison <? 2)%nat then
    (selectedForComparison ++ [id])%list
  else
    [nth 1 selectedForComparison ""; id].

(** [handlePageChange] of [page.tsx]: [{ ...filters, page: newPage }]. *)
Definition handlePageChange (filters : UniversityFilters) (newPage : Q)
  : UniversityFilters :=
  mkFilters (search filters) (countries filters) (cities filters)
    (minTuition filters) (maxTuition filters) (minRanking filters)
    (maxRanking filters) (minYear filters) (maxYear filters)
    (f_programs filters) (minAcceptanceRate filters) (maxAcceptanceRate filters)
    (campusTypes filters) (scholarshipOnly filters) (minEmploymentRate filters)
    (f_researchOutput filters) newPage (limit filters) (sortBy filters)
    (sortOrder filters).

(** The value of the [ids] parameter that [fetchComparison] of
    [ComparisonModal.tsx] sends: [universityIds.join(',')]. *)
Definition idsParameter (universityIds : list string) : string :=
  join "," universityIds.

(** The numbers on the page buttons of [page.tsx]:
    [Array.from({ length: Math.min(totalPages, 7) }, (_, i) => pageNum)]. *)
Definition pageNum (page totalPages : Z) (i : Z) : Z :=
  if (totalPages <=? 7)%Z then i + 1
  else if (page <=? 4)%Z then i + 1
  else if (page >=? totalPages - 3)%Z then totalPages - 6 + i
  else page - 3 + i.

Definition pageButtons (page totalPages : Z) : list Z :=
  map (fun i => pageNum page totalPages (Z.of_nat i))
      (seq 0 (Z.to_nat (Z.min totalPages 7))).

(** The values [handleMultiSelect] of [FilterPanel.tsx] hands to
    [updateFilter] for the field it toggles: [undefined] for an empty list. *)
Definition handleMultiSelect (current : option (list string)) (value : string)
  : option (list string) :=
  let currentValues := match current with Some l => l | None => [] end in
  let newValues :=
    if includes currentValues value
    then filter (fun v => negb (String.eqb v value)) currentValues
    else (currentValues ++ [value])%list in
  if (0 <? List.length newValues)%nat then Some newValues else None.

(** [a < b] on numbers. *)
Definition less (a b : Q) : bool := negb (Qle_bool b a).

(** [getRankingColor] and [getAcceptanceCategory] of [helpers.ts]. *)
Definition getRankingColor (ranking : option Q) : string :=
  match ranking with
  | None => "text-gray-500"
  | Some r =>
      if negb (truthy_number r) then "text-gray-500"
      else if leq r (10 # 1) then "text-yellow-600 font-bold"
      else if leq r (50 # 1) then "text-blue-600 font-semibold"
      else if leq r (100 # 1) then "text-green-600"
      else "text-gray-600"
  end.

Definition getAcceptanceCategory (rate : Q) : string :=
  if less rate (10 # 1) then "Highly Selective"
  else if less rate (30 # 1) then "Very Selective"
  else if less rate (50 # 1) then "Selective"
  else "Moderately Selective".

(** ** Text helpers of [helpers.ts]

    A string is the sequence of its UTF-16 code units, and a character of
    [string] is a code unit below 256.  In that range the white space and
    line terminators that [trim] and [\s] recognise are tab, line feed,
    vertical tab, form feed, carriage return, space and no-break space, and
    the word characters of [\w] are the ASCII letters, the digits and the
    underscore. *)

Definition isWhiteSpace (c : ascii) : bool :=
  let n := nat_of_ascii c in
  ((n =? 9) || (n =? 10) || (n =? 11) || (n =? 12) || (n =? 13)
   || (n =? 32) || (n =? 160))%nat.

Definition isWord (c : ascii) : bool :=
  let n := nat_of_ascii c in
  (((48 <=? n) && (n <=? 57)) || ((65 <=? n) && (n <=? 90))
   || (n =? 95) || ((97 <=? n) && (n <=? 122)))%nat.

Definition isHyphen (c : ascii) : bool := Ascii.eqb c "-".

(** [String.prototype.trim], as [trimStart] then [trimEnd]. *)
Fixpoint trimStart (s : string) : string :=
  match s with
  | EmptyString => EmptyString
  | String c s' => if isWhiteSpace c then trimStart s' else s
  end.

Fixpoint trimEnd (s : string) : string :=
  match s with
  | EmptyString => EmptyString
  | String c s' =>
      match trimEnd s' with
      | EmptyString => if isWhiteSpace c then EmptyString else String c EmptyString
      | rest => String c rest
      end
  end.

Definition trim (s : string) : string := trimEnd (trimStart s).




(** [s.replace(/[^\w\s-]/g, '')]: the code units outside the class go. *)
Fixpoint removeOthers (s : string) : string :=
  match s with
  | EmptyString => EmptyString
  | String c s' =>
      if isWord c || isWhiteSpace c || isHyphen c
      then String c (removeOthers s')
      else removeOthers s'
  end.

(** [s.replace(/C+/g, '-')] for a class [C] of code units: every maximal
    run of [C] becomes one hyphen.  [inRun] tells that the code unit
    before was of the class. *)
Fixpoint replaceRuns (C : ascii -> bool) (inRun : bool) (s : string) : string :=
  match s with
  | EmptyString => EmptyString
  | String c s' =>
      if C c then
        if inRun then replaceRuns C true s'
        else String "-" (replaceRuns C true s')
      else String c (replaceRuns C false s')
  end.

(** Every code unit of [s] is of the class [C]. *)
Fixpoint allChars (C : ascii -> bool) (s : string) : bool :=
  match s with
  | EmptyString => true
  | String c s' => C c && allChars C s'
  end.

(** ** Sample records, used where a statement is run on a concrete catalog *)

Definition sample (i : string) (fee : Q) (rk : option Q) (schol : bool) : University :=
  mkUniversity i ("University " ++ i) "Utopia" "Amaurot" None fee "USD" rk
    (1900 # 1) "" (10000 # 1) (10 # 1) (50 # 1) (90 # 1) ["Law"] High
    schol None Urban true (80 # 1) None "" "".

Definition noFilters : UniversityFilters :=
  mkFilters None None None None None None None None None None None None
    None None None None (1 # 1) (12 # 1) None asc.

Definition ascii_lower (c : ascii) : ascii :=
  let n := nat_of_ascii c in
  if ((65 <=? n) && (n <=? 90))%nat then ascii_of_nat (n + 32) else c.

Fixpoint ascii_toLowerCase (s : string) : string :=
  match s with
  | EmptyString => EmptyString
  | String c s' => String (ascii_lower c) (ascii_toLowerCase s')
  end.

Definition ascii_localeCompare (a b : string) : Q :=
  match String.compare a b with Lt => -1 # 1 | Eq => 0 | Gt => 1 # 1 end.

Definition sampleOptions : FilterOptions := mkFilterOptions ["Utopia"] ["Amaurot"] ["Law"].

Definition catalog3 : list University :=
  [ sample "a" (100 # 1) None true;
    sample "b" (200 # 1) (Some (5 # 1)) false;
    sample "c" (300 # 1) (Some (1 # 1)) true ].

Definition paged (p l : Q) : UniversityFilters :=
  mkFilters None None None None None None None None None None None None
    None None None None p l None asc.

Definition catalog1 : list University := [ sample "a" (100 # 1) None true ].

Definition catalog2 : list University :=
  [ sample "x" (18000 # 1) None true; sample "y" (18000 # 1) None false ].

Definition tuitionBand : UniversityFilters :=
  mkFilters None None None (Some 0) (Some (20000 # 1)) None None None None None
    None None None None None None (1 # 1) (12 # 1) None asc.

Definition scholarshipRequest : UniversityFilters :=
  mkFilters None None None None None None None None None None None None
    None (Some true) None None (1 # 1) (12 # 1) None asc.

Definition topTen : UniversityFilters :=
  mkFilters None None None None None None (Some (10 # 1)) None None None
    None None None None None None (1 # 1) (12 # 1) None asc.

(** ** [UniversityService] and the comparison endpoint *)

Section UniFinder.

Set Default Proof Using "Type".

Variable universities : list University.
Variable getFilterOptions : FilterOptions.
Variable toLowerCase : string -> string.
Variable localeCompare : string -> string -> Q.

(** *** [filterUniversities] *)

(** One step of [filterUniversities]:
    [if (active) filtered = filtered.filter(p)]. *)
Definition pass (active : bool) (p : University -> bool) (filtered : list University)
  : list University :=
  if active then filter p filtered else filtered.

(** The guards: [filters.search], [filters.xs && filters.xs.length > 0],
    [filters.x !== undefined], [filters.scholarshipOnly]. *)
Definition truthy (o : option string) : bool :=
  match o with Some s => truthy_string s | None => false end.

Definition nonEmpty {A} (o : option (list A)) : bool :=
  match o with Some (_ :: _) => true | _ => false end.

Definition defined {A} (o : option A) : bool :=
  match o with Some _ => true | None => false end.

Definition isTrue (o : option bool) : bool :=
  match o with Some b => b | None => false end.

(** [o!] under a guard that has checked [o]; the default is never read. *)
Definition get {A} (d : A) (o : option A) : A :=
  match o with Some x => x | None => d end.

(** The arrow functions handed to [filter], each over the field it reads. *)
Definition matchesSearch (o : option string) (u : University) : bool :=
  let searchLower := toLowerCase (get "" o) in
  str_includes (toLowerCase (name u)) searchLower
  || str_includes (toLowerCase (city u)) searchLower
  || str_includes (toLowerCase (country u)) searchLower
  || str_includes (toLowerCase (description u)) searchLower.

Definition inCountries (o : option (list string)) (u : University) : bool :=
  includes (get [] o) (country u).

Definition inCities (o : option (list string)) (u : University) : bool :=
  includes (get [] o) (city u).

Definition tuitionAtLeast (o : option Q) (u : University) : bool :=
  geq (tuitionFee u) (get 0 o).

Definition tuitionAtMost (o : option Q) (u : University) : bool :=
  leq (tuitionFee u) (get 0 o).

Definition rankingAtLeast (o : option Q) (u : University) : bool :=
  match ranking u with
  | None => false
  | Some r => geq r (get 0 o)
  end.

Definition rankingAtMost (o : option Q) (u : University) : bool :=
  match ranking u with
  | None => false
  | Some r => leq r (get 0 o)
  end.

Definition yearAtLeast (o : option Q) (u : University) : bool :=
  geq (establishedYear u) (get 0 o).

Definition yearAtMost (o : option Q) (u : University) : bool :=
  leq (establishedYear u) (get 0 o).

Definition offersAny (o : option (list string)) (u : University) : bool :=
  some (fun program => includes (programs u) program) (get [] o).

Definition acceptanceAtLeast (o : option Q) (u : University) : bool :=
  geq (acceptanceRate u) (get 0 o).

Definition acceptanceAtMost (o : option Q) (u : University) : bool :=
  leq (acceptanceRate u) (get 0 o).

Definition inCampusTypes (o : option (list CampusType)) (u : University) : bool :=
  includes_campus (get [] o) (campusType u).

Definition hasScholarship (_ : option bool) (u : University) : bool :=
  scholarshipAvailable u.

Definition employmentAtLeast (o : option Q) (u : University) : bool :=
  geq (employmentRate u) (get 0 o).

Definition inResearchOutput (o : option (list ResearchOutput)) (u : University) : bool :=
  includes_research (get [] o) (researchOutput u).

Definition filterUniversities (fs : UniversityFilters) : list University :=
  let filtered := universities in
  let filtered := pass (truthy (search fs)) (matchesSearch (search fs)) filtered in
  let filtered := pass (nonEmpty (countries fs)) (inCountries (countries fs)) filtered in
  let filtered := pass (nonEmpty (cities fs)) (inCities (cities fs)) filtered in
  let filtered := pass (defined (minTuition fs)) (tuitionAtLeast (minTuition fs)) filtered in
  let filtered := pass (defined (maxTuition fs)) (tuitionAtMost (maxTuition fs)) filtered in
  let filtered := pass (defined (minRanking fs)) (rankingAtLeast (minRanking fs)) filtered in
  let filtered := pass (defined (maxRanking fs)) (rankingAtMost (maxRanking fs)) filtered in
  let filtered := pass (defined (minYear fs)) (yearAtLeast (minYear fs)) filtered in
  let filtered := pass (defined (maxYear fs)) (yearAtMost (maxYear fs)) filtered in
  let filtered := pass (nonEmpty (f_programs fs)) (offersAny (f_programs fs)) filtered in
  let filtered :=
    pass (defined (minAcceptanceRate fs)) (acceptanceAtLeast (minAcceptanceRate fs))
      filtered in
  let filtered :=
    pass (defined (maxAcceptanceRate fs)) (acceptanceAtMost (maxAcceptanceRate fs))
      filtered in
  let filtered :=
    pass (nonEmpty (campusTypes fs)) (inCampusTypes (campusTypes fs)) filtered in
  let filtered :=
    pass (isTrue (scholarshipOnly fs)) (hasScholarship (scholarshipOnly fs)) filtered in
  let filtered :=
    pass (defined (minEmploymentRate fs)) (employmentAtLeast (minEmploymentRate fs))
      filtered in
  let filtered :=
    pass (nonEmpty (f_researchOutput fs)) (inResearchOutput (f_researchOutput fs))
      filtered in
  filtered.

(** *** [sortUniversities] *)

(** [aValue] / [bValue]: [number | string]. *)
Inductive SortValue := Str (s : string) | Num (n : Q).

(** The [switch (sortBy)] that picks the key; [x ?? y] is [get y x]. *)
Definition sortValue (by_ : SortBy) (u : University) : SortValue :=
  match by_ with
  | by_name => Str (toLowerCase (name u))
  | by_ranking => Num (get MAX_SAFE_INTEGER (ranking u))
  | by_tuitionFee => Num (tuitionFee u)
  | by_establishedYear => Num (establishedYear u)
  | by_acceptanceRate => Num (acceptanceRate u)
  | by_employmentRate => Num (employmentRate u)
  end.

(** The comparator handed to [sort].  Both keys come from the same branch of
    the switch, so a string never meets a number; that case (NaN in
    JavaScript) is given 0 here and is never reached. *)
Definition compareBy (by_ : SortBy) (sortOrder : SortOrder) (a b : University) : Q :=
  match sortValue by_ a, sortValue by_ b with
  | Str aValue, Str bValue =>
      match sortOrder with
      | asc => localeCompare aValue bValue
      | desc => localeCompare bValue aValue
      end
  | Num aValue, Num bValue =>
      match sortOrder with
      | asc => aValue - bValue
      | desc => bValue - aValue
      end
  | _, _ => 0
  end.

Definition sortUniversities (us : list University) (sortBy : option SortBy)
    (sortOrder : SortOrder) : list University :=
  match sortBy with
  | None => us
  | Some by_ => sort (compareBy by_ sortOrder) us
  end.

(** *** [paginateResults] and [getUniversities] *)

Definition paginateResults (us : list University) (page limit : Q)
  : list University * nat * Z :=
  let total := List.length us in
  let totalPages := Math_ceil (inject_Z (Z.of_nat total) / limit) in
  let start := (page - 1) * limit in
  let end_ := start + limit in
  let data := slice us start end_ in
  (data, total, totalPages).

Definition getUniversities (fs : UniversityFilters) : PaginatedResponse :=
  let filtered := filterUniversities fs in
  let filtered := sortUniversities filtered (sortBy fs) (sortOrder fs) in
  let '(data, total, totalPages) := paginateResults filtered (page fs) (limit fs) in
  mkPaginatedResponse data
    (mkPagination total (page fs) (limit fs) totalPages)
    getFilterOptions.

Definition getUniversityById (i : string) : option University :=
  find (fun u => String.eqb (id u) i) universities.

Definition getUniversitiesByIds (ids : list string) : list University :=
  filter (fun u => includes ids (id u)) universities.

(** *** [getUniversityById] and [getStatistics] *)

(** [new Set(xs).size]: the number of different values. *)
Definition Set_size (xs : list string) : nat :=
  List.length (nodup string_dec xs).

(** [Math.round]: the nearest whole number, a half going up. *)
Definition Math_round (q : Q) : Z := Qfloor (q + (1 # 2)).

(** [x || 0] on [number | null]. *)
Definition orZero (o : option Q) : Q :=
  match o with
  | Some r => if truthy_number r then r else 0
  | None => 0
  end.

Record Statistics := mkStatistics {
  totalUniversities : nat;
  s_countries : nat;
  avgTuitionFee : Z;
  topRanked : list University
}.

(** On an empty catalog the average is [0 / 0], NaN in JavaScript; the
    model has no NaN and [avgTuitionFee] is meaningful for a catalog with a
    record at least. *)
Definition getStatistics : Statistics :=
  mkStatistics
    (List.length universities)
    (Set_size (map country universities))
    (Math_round
       (fold_left (fun sum u => sum + tuitionFee u) universities 0
        / inject_Z (Z.of_nat (List.length universities))))
    (slice
       (sort (fun a b => orZero (ranking a) - orZero (ranking b))
             (filter (fun u => defined (ranking u)) universities))
       0 (5 # 1)).

(** [generateSlug] of [helpers.ts]. *)
Definition generateSlug (text : string) : string :=
  trim
    (replaceRuns isHyphen false
       (replaceRuns isWhiteSpace false
          (removeOthers (toLowerCase text)))).

(** *** [GET /api/universities/compare?ids=id1,id2] *)

(** [idsParam.split(',').filter(Boolean)]. *)
Definition parseIds (idsParam : string) : list string :=
  filter truthy_string (split "," idsParam).

Definition compareMetrics (uni1 uni2 : University) : ComparisonMetrics :=
  mkComparisonMetrics
    (Math_abs (tuitionFee uni1 - tuitionFee uni2))
    (match ranking uni1, ranking uni2 with
     | Some r1, Some r2 =>
         if truthy_number r1 && truthy_number r2
         then Some (Math_abs (r1 - r2))
         else None
     | _, _ => None
     end)
    (Math_abs (acceptanceRate uni1 - acceptanceRate uni2))
    (Math_abs (employmentRate uni1 - employmentRate uni2)).

(** [idsParam] is [searchParams.get('ids')], [None] when the parameter is
    missing.  Destructuring fewer than two records and reading a field of
    [undefined] throws; the [catch] turns that into the 500 response. *)
Definition GET (idsParam : option string) : Response :=
  match idsParam with
  | None => json (ErrorBody "Missing ids parameter") 400
  | Some p =>
      if negb (truthy_string p) then json (ErrorBody "Missing ids parameter") 400
      else
        let ids := parseIds p in
        if negb (List.length ids =? 2)%nat then
          json (ErrorBody "Exactly 2 university IDs are required for comparison") 400
        else
          let found := getUniversitiesByIds ids in
          if negb (List.length found =? 2)%nat then
            json (ErrorBody "One or both universities not found") 404
          else
            match found with
            | uni1 :: uni2 :: _ =>
                json (ComparisonBody
                        (mkUniversityComparison (uni1, uni2) (compareMetrics uni1 uni2)))
                     200
            | _ => json (ErrorBody "Internal server error") 500
            end
  end.


(** ** Vocabulary of the statements *)

(** [u] passes a filter dimension: the dimension is not active, or its
    predicate holds of [u]. *)
Definition satisfies (active : bool) (p : University -> bool) (u : University) : Prop :=
  active = true -> p u = true.

(** [u] passes every active dimension of the request. *)
Definition satisfiesAll (fs : UniversityFilters) (u : University) : Prop :=
  satisfies (truthy (search fs)) (matchesSearch (search fs)) u
  /\ satisfies (nonEmpty (countries fs)) (inCountries (countries fs)) u
  /\ satisfies (nonEmpty (cities fs)) (inCities (cities fs)) u
  /\ satisfies (defined (minTuition fs)) (tuitionAtLeast (minTuition fs)) u
  /\ satisfies (defined (maxTuition fs)) (tuitionAtMost (maxTuition fs)) u
  /\ satisfies (defined (minRanking fs)) (rankingAtLeast (minRanking fs)) u
  /\ satisfies (defined (maxRanking fs)) (rankingAtMost (maxRanking fs)) u
  /\ satisfies (defined (minYear fs)) (yearAtLeast (minYear fs)) u
  /\ satisfies (defined (maxYear fs)) (yearAtMost (maxYear fs)) u
  /\ satisfies (nonEmpty (f_programs fs)) (offersAny (f_programs fs)) u
  /\ satisfies (defined (minAcceptanceRate fs))
       (acceptanceAtLeast (minAcceptanceRate fs)) u
  /\ satisfies (defined (maxAcceptanceRate fs))
       (acceptanceAtMost (maxAcceptanceRate fs)) u
  /\ satisfies (nonEmpty (campusTypes fs)) (inCampusTypes (campusTypes fs)) u
  /\ satisfies (isTrue (scholarshipOnly fs)) (hasScholarship (scholarshipOnly fs)) u
  /\ satisfies (defined (minEmploymentRate fs))
       (employmentAtLeast (minEmploymentRate fs)) u
  /\ satisfies (nonEmpty (f_researchOutput fs))
       (inResearchOutput (f_researchOutput fs)) u.

(** No dimension of the request is active. *)
Definition noActiveFilter (fs : UniversityFilters) : bool :=
  negb (truthy (search fs))
  && negb (nonEmpty (countries fs))
  && negb (nonEmpty (cities fs))
  && negb (defined (minTuition fs))
  && negb (defined (maxTuition fs))
  && negb (defined (minRanking fs))
  && negb (defined (maxRanking fs))
  && negb (defined (minYear fs))
  && negb (defined (maxYear fs))
  && negb (nonEmpty (f_programs fs))
  && negb (defined (minAcceptanceRate fs))
  && negb (defined (maxAcceptanceRate fs))
  && negb (nonEmpty (campusTypes fs))
  && negb (isTrue (scholarshipOnly fs))
  && negb (defined (minEmploymentRate fs))
  && negb (nonEmpty (f_researchOutput fs)).

(** Two requests put into one: each field is taken from the request that
    sets it ([f1] first); paging and ordering are those of [f1]. *)
Definition orElse {A} (a b : option A) : option A :=
  match a with Some _ => a | None => b end.

Definition bothRequests (f1 f2 : UniversityFilters) : UniversityFilters :=
  mkFilters
    (orElse (search f1) (search f2))
    (orElse (countries f1) (countries f2))
    (orElse (cities f1) (cities f2))
    (orElse (minTuition f1) (minTuition f2))
    (orElse (maxTuition f1) (maxTuition f2))
    (orElse (minRanking f1) (minRanking f2))
    (orElse (maxRanking f1) (maxRanking f2))
    (orElse (minYear f1) (minYear f2))
    (orElse (maxYear f1) (maxYear f2))
    (orElse (f_programs f1) (f_programs f2))
    (orElse (minAcceptanceRate f1) (minAcceptanceRate f2))
    (orElse (maxAcceptanceRate f1) (maxAcceptanceRate f2))
    (orElse (campusTypes f1) (campusTypes f2))
    (orElse (scholarshipOnly f1) (scholarshipOnly f2))
    (orElse (minEmploymentRate f1) (minEmploymentRate f2))
    (orElse (f_researchOutput f1) (f_researchOutput f2))
    (page f1) (limit f1) (sortBy f1) (sortOrder f1).

(** The two requests do not set the same field. *)
Definition apart {A} (a b : option A) : bool := negb (defined a && defined b).

Definition separateDimensions (f1 f2 : UniversityFilters) : bool :=
  apart (search f1) (search f2)
  && apart (countries f1) (countries f2)
  && apart (cities f1) (cities f2)
  && apart (minTuition f1) (minTuition f2)
  && apart (maxTuition f1) (maxTuition f2)
  && apart (minRanking f1) (minRanking f2)
  && apart (maxRanking f1) (maxRanking f2)
  && apart (minYear f1) (minYear f2)
  && apart (maxYear f1) (maxYear f2)
  && apart (f_programs f1) (f_programs f2)
  && apart (minAcceptanceRate f1) (minAcceptanceRate f2)
  && apart (maxAcceptanceRate f1) (maxAcceptanceRate f2)
  && apart (campusTypes f1) (campusTypes f2)
  && apart (scholarshipOnly f1) (scholarshipOnly f2)
  && apart (minEmploymentRate f1) (minEmploymentRate f2)
  && apart (f_researchOutput f1) (f_researchOutput f2).

(** [l1] is [l2] with some elements left out: same order, no repetition. *)
Inductive subsequence {A} : list A -> list A -> Prop :=
| subsequence_nil : subsequence [] []
| subsequence_skip x l1 l2 : subsequence l1 l2 -> subsequence l1 (x :: l2)
| subsequence_keep x l1 l2 : subsequence l1 l2 -> subsequence (x :: l1) (x :: l2).

(** The numeric sort fields, and the number a record is ordered by under
    one of them (for [ranking], after the substitution for a missing one). *)
Definition numeric (by_ : SortBy) : bool :=
  match by_ with by_name => false | _ => true end.

Definition numericKey (by_ : SortBy) (u : University) : Q :=
  match sortValue by_ u with Num n => n | Str _ => 0 end.

(** No two records at different positions of the list have the same key. *)
Definition distinctKeys (key : University -> Q) (l : list University) : Prop :=
  ForallOrdPairs (fun a b => ~ key a == key b) l.

(** [cmp] orders by [key], smallest first. *)
Definition ordersBy {A} (cmp : A -> A -> Q) (key : A -> Q) : Prop :=
  forall a b, cmp a b <= 0 <-> key a <= key b.

(** Every record without a ranking comes after every record with one. *)
Fixpoint unrankedLast (l : list University) : bool :=
  match l with
  | [] => true
  | u :: l' =>
      match ranking u with
      | None => forallb (fun v => negb (defined (ranking v))) l'
      | Some _ => unrankedLast l'
      end
  end.

(** ** Filtering *)

Lemma in_pass (active : bool) (p : University -> bool) (l : list University) (u : University) :
  In u (pass active p l) <-> In u l /\ satisfies active p u.
Proof.
  unfold pass, satisfies. destruct active.
  - rewrite filter_In. intuition.
  - intuition. discriminate.
Qed.

Lemma filterUniversities_spec (fs : UniversityFilters) (u : University) :
  In u (filterUniversities fs) <-> In u universities /\ satisfiesAll fs u.
Proof.
  unfold filterUniversities, satisfiesAll; cbv zeta.
  rewrite !in_pass. tauto.
Qed.

Lemma satisfies_orElse {A} (active : option A -> bool)
    (p : option A -> University -> bool) (a b : option A) (u : University) :
  active None = false ->
  apart a b = true ->
  (satisfies (active (orElse a b)) (p (orElse a b)) u
   <-> satisfies (active a) (p a) u /\ satisfies (active b) (p b) u).
Proof.
  unfold satisfies, apart. intros Hnone Hapart.
  destruct a as [x|]; destruct b as [y|]; simpl in *;
    try discriminate; rewrite ?Hnone; intuition; discriminate.
Qed.

Lemma satisfiesAll_both (f1 f2 : UniversityFilters) (u : University) :
  separateDimensions f1 f2 = true ->
  (satisfiesAll (bothRequests f1 f2) u <-> satisfiesAll f1 u /\ satisfiesAll f2 u).
Proof.
  unfold separateDimensions. rewrite !andb_true_iff.
  intros H. decompose [and] H; clear H.
  unfold satisfiesAll, bothRequests; cbn [search countries cities minTuition
    maxTuition minRanking maxRanking minYear maxYear f_programs minAcceptanceRate
    maxAcceptanceRate campusTypes scholarshipOnly minEmploymentRate f_researchOutput].
  rewrite (satisfies_orElse truthy matchesSearch) by (reflexivity || assumption).
  rewrite (satisfies_orElse nonEmpty inCountries) by (reflexivity || assumption).
  rewrite (satisfies_orElse nonEmpty inCities) by (reflexivity || assumption).
  rewrite (satisfies_orElse defined tuitionAtLeast) by (reflexivity || assumption).
  rewrite (satisfies_orElse defined tuitionAtMost) by (reflexivity || assumption).
  rewrite (satisfies_orElse defined rankingAtLeast) by (reflexivity || assumption).
  rewrite (satisfies_orElse defined rankingAtMost) by (reflexivity || assumption).
  rewrite (satisfies_orElse defined yearAtLeast) by (reflexivity || assumption).
  rewrite (satisfies_orElse defined yearAtMost) by (reflexivity || assumption).
  rewrite (satisfies_orElse nonEmpty offersAny) by (reflexivity || assumption).
  rewrite (satisfies_orElse defined acceptanceAtLeast) by (reflexivity || assumption).
  rewrite (satisfies_orElse defined acceptanceAtMost) by (reflexivity || assumption).
  rewrite (satisfies_orElse nonEmpty inCampusTypes) by (reflexivity || assumption).
  rewrite (satisfies_orElse isTrue hasScholarship) by (reflexivity || assumption).
  rewrite (satisfies_orElse defined employmentAtLeast) by (reflexivity || assumption).
  rewrite (satisfies_orElse nonEmpty inResearchOutput) by (reflexivity || assumption).
  tauto.
Qed.

(** C1. Filtering is conjunctive across dimensions: a record is in the
    filtered result exactly when it is in the catalog and passes every active
    filter predicate; and for two requests that set different fields, the
    records in both results are exactly the records in the result of the one
    request that carries both. *)
Theorem C1_filter_conjunctive (f1 f2 : UniversityFilters) (u : University) :
  (In u (filterUniversities f1) <-> In u universities /\ satisfiesAll f1 u)
  /\ (separateDimensions f1 f2 = true ->
      (In u (filterUniversities (bothRequests f1 f2))
       <-> In u (filterUniversities f1) /\ In u (filterUniversities f2))).
Proof.
  split.
  - apply filterUniversities_spec.
  - intros Hsep. rewrite !filterUniversities_spec.
    rewrite (satisfiesAll_both f1 f2 u Hsep). tauto.
Qed.

(** C5. When the request sets a ranking bound, no record without a ranking
    is in the filtered result. *)
Theorem C5_ranking_bound_excludes_unranked (fs : UniversityFilters) (u : University) :
  minRanking fs <> None \/ maxRanking fs <> None ->
  ranking u = None ->
  ~ In u (filterUniversities fs).
Proof.
  intros Hbound Hnone Hin.
  apply filterUniversities_spec in Hin.
  destruct Hin as [_ Hall]. unfold satisfiesAll in Hall.
  decompose [and] Hall; clear Hall.
  destruct Hbound as [Hmin | Hmax].
  - destruct (minRanking fs) as [lo|] eqn:E; [|congruence].
    match goal with
    | H : satisfies (defined (Some lo)) (rankingAtLeast (Some lo)) u |- _ =>
        specialize (H eq_refl); unfold rankingAtLeast in H; rewrite Hnone in H
    end.
    discriminate.
  - destruct (maxRanking fs) as [hi|] eqn:E; [|congruence].
    match goal with
    | H : satisfies (defined (Some hi)) (rankingAtMost (Some hi)) u |- _ =>
        specialize (H eq_refl); unfold rankingAtMost in H; rewrite Hnone in H
    end.
    discriminate.
Qed.

(** ** Order-preserving subsequences *)

Lemma subsequence_refl {A} (l : list A) : subsequence l l.
Proof. induction l; constructor; assumption. Qed.

Lemma subsequence_trans {A} (l1 l2 l3 : list A) :
  subsequence l1 l2 -> subsequence l2 l3 -> subsequence l1 l3.
Proof.
  intros H12 H23. revert l1 H12.
  induction H23 as [| x l2 l3 H23 IH | x l2 l3 H23 IH]; intros l1 H12.
  - assumption.
  - constructor. apply IH. assumption.
  - inversion H12; subst.
    + constructor. apply IH. assumption.
    + apply subsequence_keep. apply IH. assumption.
Qed.

Lemma subsequence_filter {A} (p : A -> bool) (l : list A) :
  subsequence (filter p l) l.
Proof.
  induction l as [| x l IH]; simpl.
  - constructor.
  - destruct (p x); constructor; assumption.
Qed.

Lemma subsequence_firstn {A} (n : nat) (l : list A) : subsequence (firstn n l) l.
Proof.
  revert n. induction l as [| x l IH]; intros [| n]; simpl.
  - constructor.
  - constructor.
  - constructor. apply (IH 0%nat).
  - apply subsequence_keep. apply IH.
Qed.

Lemma subsequence_skipn {A} (n : nat) (l : list A) : subsequence (skipn n l) l.
Proof.
  revert n. induction l as [| x l IH]; intros [| n]; simpl.
  - constructor.
  - constructor.
  - apply subsequence_refl.
  - constructor. apply IH.
Qed.

Lemma subsequence_slice {A} (l : list A) (start end_ : Q) :
  subsequence (slice l start end_) l.
Proof.
  unfold slice.
  eapply subsequence_trans; [apply subsequence_firstn | apply subsequence_skipn].
Qed.

Lemma subsequence_pass (active : bool) (p : University -> bool) (l l' : list University) :
  subsequence l l' -> subsequence (pass active p l) l'.
Proof.
  intros H. unfold pass. destruct active; [|assumption].
  eapply subsequence_trans; [apply subsequence_filter | assumption].
Qed.

Lemma filterUniversities_subsequence (fs : UniversityFilters) :
  subsequence (filterUniversities fs) universities.
Proof.
  unfold filterUniversities; cbv zeta.
  repeat apply subsequence_pass. apply subsequence_refl.
Qed.

Lemma subsequence_In {A} (l1 l2 : list A) (x : A) :
  subsequence l1 l2 -> In x l1 -> In x l2.
Proof.
  induction 1; simpl; intuition.
Qed.

Lemma subsequence_NoDup {A} (l1 l2 : list A) :
  subsequence l1 l2 -> NoDup l2 -> NoDup l1.
Proof.
  induction 1 as [| x l1 l2 H IH | x l1 l2 H IH]; intros Hnd.
  - constructor.
  - inversion Hnd; subst. auto.
  - inversion Hnd; subst. constructor; [|auto].
    intros Hin. eauto using subsequence_In.
Qed.

(** C10. The filtered result is an order-preserving subsequence of the
    catalog, so filtering repeats no record the catalog does not repeat; and
    when the request names no sort field, the page returned is an
    order-preserving subsequence of the catalog too. *)
Theorem C10_filter_preserves_catalog_order (fs : UniversityFilters) :
  subsequence (filterUniversities fs) universities
  /\ (NoDup universities -> NoDup (filterUniversities fs))
  /\ (sortBy fs = None -> subsequence (data (getUniversities fs)) universities).
Proof.
  split; [apply filterUniversities_subsequence | split].
  - apply subsequence_NoDup, filterUniversities_subsequence.
  - intros Hnone. unfold getUniversities, paginateResults; cbv zeta; simpl.
    rewrite Hnone. simpl.
    eapply subsequence_trans;
      [apply subsequence_slice | apply filterUniversities_subsequence].
Qed.

(** ** The stable sort *)

Section Sort.

Context {A : Type}.
Variable cmp : A -> A -> Q.

Lemma sort_insert_perm (x : A) (l : list A) :
  Permutation (sort_insert cmp x l) (x :: l).
Proof.
  induction l as [| y l IH]; simpl.
  - apply Permutation_refl.
  - destruct (Qle_bool (cmp x y) 0).
    + apply Permutation_refl.
    + eapply perm_trans; [apply perm_skip, IH | apply perm_swap].
Qed.

Lemma sort_perm (l : list A) : Permutation (sort cmp l) l.
Proof.
  induction l as [| x l IH]; simpl.
  - constructor.
  - eapply perm_trans; [apply sort_insert_perm | apply perm_skip, IH].
Qed.

Lemma sort_length (l : list A) : List.length (sort cmp l) = List.length l.
Proof. apply Permutation_length, sort_perm. Qed.

Variable key : A -> Q.
Hypothesis cmp_key : ordersBy cmp key.

Lemma sort_insert_sorted (x : A) (l : list A) :
  StronglySorted (fun a b => key a <= key b) l ->
  StronglySorted (fun a b => key a <= key b) (sort_insert cmp x l).
Proof using cmp_key.
  induction l as [| y l IH]; simpl; intros Hs.
  - repeat constructor.
  - inversion Hs as [| ? ? Hs' Hall]; subst.
    destruct (Qle_bool (cmp x y) 0) eqn:E.
    + apply Qle_bool_iff, cmp_key in E.
      constructor; [assumption|].
      constructor; [assumption|].
      eapply Forall_impl; [|exact Hall].
      intros z Hz; simpl in Hz. lra.
    + assert (Hlt : key y < key x).
      { apply Qnot_le_lt. intros Hle. apply cmp_key, Qle_bool_iff in Hle. congruence. }
      constructor; [apply IH; assumption|].
      eapply Permutation_Forall; [apply Permutation_sym, sort_insert_perm|].
      constructor; [lra | assumption].
Qed.

Lemma sort_sorted (l : list A) :
  StronglySorted (fun a b => key a <= key b) (sort cmp l).
Proof using cmp_key.
  induction l as [| x l IH]; simpl.
  - constructor.
  - apply sort_insert_sorted, IH.
Qed.

Lemma sort_insert_strict (x : A) (l : list A) :
  Forall (fun y => ~ key x == key y) l ->
  StronglySorted (fun a b => key a < key b) l ->
  StronglySorted (fun a b => key a < key b) (sort_insert cmp x l).
Proof using cmp_key.
  induction l as [| y l IH]; simpl; intros Hneq Hs.
  - repeat constructor.
  - inversion Hs as [| ? ? Hs' Hall]; subst.
    inversion Hneq as [| ? ? Hxy Hneq']; subst.
    destruct (Qle_bool (cmp x y) 0) eqn:E.
    + apply Qle_bool_iff, cmp_key in E.
      assert (Hlt : key x < key y).
      { apply Qle_lteq in E. destruct E; [assumption | contradiction]. }
      constructor; [assumption|].
      constructor; [assumption|].
      eapply Forall_impl; [|exact Hall].
      intros z Hz; simpl in Hz. lra.
    + assert (Hlt : key y < key x).
      { apply Qnot_le_lt. intros Hle. apply cmp_key, Qle_bool_iff in Hle. congruence. }
      constructor; [apply IH; assumption|].
      eapply Permutation_Forall; [apply Permutation_sym, sort_insert_perm|].
      constructor; assumption.
Qed.

Lemma sort_strict (l : list A) :
  ForallOrdPairs (fun a b => ~ key a == key b) l ->
  StronglySorted (fun a b => key a < key b) (sort cmp l).
Proof using cmp_key.
  induction 1 as [| x l Hx Hl IH]; simpl.
  - constructor.
  - apply sort_insert_strict; [|assumption].
    eapply Permutation_Forall; [apply Permutation_sym, sort_perm | assumption].
Qed.

End Sort.

(** ** Sorted lists *)

Lemma StronglySorted_weaken {A} (R R' : A -> A -> Prop) (l : list A) :
  (forall a b, R a b -> R' a b) -> StronglySorted R l -> StronglySorted R' l.
Proof.
  intros HR. induction 1 as [| x l Hs IH Hall]; constructor.
  - assumption.
  - eapply Forall_impl; [|exact Hall]. intros b; apply HR.
Qed.

Lemma ForallOrdPairs_weaken {A} (R R' : A -> A -> Prop) (l : list A) :
  (forall a b, R a b -> R' a b) -> ForallOrdPairs R l -> ForallOrdPairs R' l.
Proof.
  intros HR. induction 1 as [| x l Hall Hs IH]; constructor.
  - eapply Forall_impl; [|exact Hall]. intros b; apply HR.
  - assumption.
Qed.

Lemma StronglySorted_pairs {A} (R : A -> A -> Prop) (l : list A) :
  StronglySorted R l -> ForallOrdPairs R l.
Proof. induction 1; constructor; assumption. Qed.

Lemma StronglySorted_snoc {A} (R : A -> A -> Prop) (l : list A) (x : A) :
  StronglySorted R l -> Forall (fun y => R y x) l -> StronglySorted R (l ++ [x]).
Proof.
  induction 1 as [| y l Hs IH Hall]; intros Hx; simpl.
  - repeat constructor.
  - inversion Hx; subst. constructor.
    + apply IH. assumption.
    + apply Forall_app. split; [assumption | repeat constructor; assumption].
Qed.

Lemma StronglySorted_rev {A} (R : A -> A -> Prop) (l : list A) :
  StronglySorted R l -> StronglySorted (fun a b => R b a) (rev l).
Proof.
  induction 1 as [| x l Hs IH Hall]; simpl.
  - constructor.
  - apply StronglySorted_snoc; [assumption|].
    apply Forall_rev. assumption.
Qed.

Lemma StronglySorted_after {A} (R : A -> A -> Prop) (l1 l2 : list A) (x : A) :
  StronglySorted R (l1 ++ x :: l2) -> Forall (R x) l2.
Proof.
  induction l1 as [| y l1 IH]; simpl; intros Hs; inversion Hs; subst; auto.
Qed.

(** A list has at most one arrangement that is sorted for an asymmetric
    relation. *)
Lemma sorted_arrangement_unique {A} (R : A -> A -> Prop) :
  (forall a b, R a b -> R b a -> False) ->
  forall l1 l2 : list A,
    StronglySorted R l1 -> StronglySorted R l2 -> Permutation l1 l2 -> l1 = l2.
Proof.
  intros Hasym. induction l1 as [| a l1 IH]; intros l2 Hs1 Hs2 Hp.
  - apply Permutation_nil in Hp. congruence.
  - destruct l2 as [| b l2].
    { apply Permutation_sym, Permutation_nil in Hp. discriminate. }
    inversion Hs1 as [| ? ? Hs1' Hall1]; subst.
    inversion Hs2 as [| ? ? Hs2' Hall2]; subst.
    assert (Hab : a = b).
    { assert (Ha : In a (b :: l2))
        by (eapply Permutation_in; [exact Hp | left; reflexivity]).
      assert (Hb : In b (a :: l1))
        by (eapply Permutation_in; [exact (Permutation_sym Hp) | left; reflexivity]).
      destruct Ha as [-> | Ha]; [reflexivity|].
      destruct Hb as [-> | Hb]; [reflexivity|].
      rewrite Forall_forall in Hall1, Hall2.
      exfalso. exact (Hasym a b (Hall1 b Hb) (Hall2 a Ha)). }
    subst b. f_equal. apply IH; try assumption.
    eapply Permutation_cons_inv; exact Hp.
Qed.

(** ** Sorting the catalog *)

Lemma compareBy_asc (by_ : SortBy) :
  numeric by_ = true -> ordersBy (compareBy by_ asc) (numericKey by_).
Proof.
  intros Hnum a b. destruct by_; try discriminate;
    unfold compareBy, numericKey; simpl; lra.
Qed.

Lemma compareBy_desc (by_ : SortBy) :
  numeric by_ = true ->
  ordersBy (compareBy by_ desc) (fun u => - numericKey by_ u).
Proof.
  intros Hnum a b. destruct by_; try discriminate;
    unfold compareBy, numericKey; simpl; lra.
Qed.

Lemma sortUniversities_perm (us : list University) (by_ : option SortBy) (o : SortOrder) :
  Permutation (sortUniversities us by_ o) us.
Proof.
  destruct by_; simpl; [apply sort_perm | apply Permutation_refl].
Qed.

Lemma sort_asc_strict (by_ : SortBy) (l : list University) :
  numeric by_ = true ->
  distinctKeys (numericKey by_) l ->
  StronglySorted (fun a b => numericKey by_ a < numericKey by_ b)
    (sort (compareBy by_ asc) l).
Proof.
  intros Hnum Hd. apply sort_strict; [apply compareBy_asc|]; assumption.
Qed.

Lemma sort_desc_strict (by_ : SortBy) (l : list University) :
  numeric by_ = true ->
  distinctKeys (numericKey by_) l ->
  StronglySorted (fun a b => numericKey by_ b < numericKey by_ a)
    (sort (compareBy by_ desc) l).
Proof.
  intros Hnum Hd.
  apply StronglySorted_weaken
    with (R := fun a b => - numericKey by_ a < - numericKey by_ b).
  { intros a b; simpl; lra. }
  apply sort_strict; [apply compareBy_desc; assumption|].
  eapply ForallOrdPairs_weaken; [|exact Hd].
  intros a b Hne Heq. apply Hne. lra.
Qed.

(** C8. For a numeric sort field and a list whose keys for that field are
    pairwise distinct, the descending sort is the reverse of the ascending
    sort, whether it is applied to the list itself or to the list already
    sorted ascending. *)
Theorem C8_ascending_descending_reverse (by_ : SortBy) (l : list University) :
  numeric by_ = true ->
  distinctKeys (numericKey by_) l ->
  sortUniversities l (Some by_) desc = rev (sortUniversities l (Some by_) asc)
  /\ sortUniversities (sortUniversities l (Some by_) asc) (Some by_) desc
     = rev (sortUniversities l (Some by_) asc).
Proof.
  intros Hnum Hd. simpl.
  pose proof (sort_asc_strict by_ l Hnum Hd) as Hasc.
  assert (Hrev : StronglySorted (fun a b => numericKey by_ b < numericKey by_ a)
                   (rev (sort (compareBy by_ asc) l))).
  { apply (StronglySorted_rev _ _ Hasc). }
  assert (Hasym : forall a b : University,
             numericKey by_ b < numericKey by_ a ->
             numericKey by_ a < numericKey by_ b -> False).
  { intros a b H1 H2. lra. }
  split.
  - apply (sorted_arrangement_unique _ Hasym).
    + apply sort_desc_strict; assumption.
    + exact Hrev.
    + eapply perm_trans; [apply sort_perm|].
      eapply perm_trans; [apply Permutation_sym, sort_perm|].
      apply Permutation_rev.
  - apply (sorted_arrangement_unique _ Hasym).
    + apply sort_desc_strict; [assumption|].
      apply StronglySorted_pairs in Hasc.
      eapply ForallOrdPairs_weaken; [|exact Hasc].
      intros a b Hlt Heq. simpl in Hlt. lra.
    + exact Hrev.
    + eapply perm_trans; [apply sort_perm|]. apply Permutation_rev.
Qed.

Lemma StronglySorted_unrankedLast (l : list University) :
  (forall u r, In u l -> ranking u = Some r -> r < MAX_SAFE_INTEGER) ->
  StronglySorted
    (fun a b => numericKey by_ranking a <= numericKey by_ranking b) l ->
  unrankedLast l = true.
Proof.
  intros Hbound Hs. induction Hs as [| u l Hs IH Hall]; simpl.
  - reflexivity.
  - destruct (ranking u) as [r|] eqn:Er.
    + apply IH. intros v rv Hv. apply Hbound. right; assumption.
    + apply forallb_forall. intros v Hv.
      rewrite Forall_forall in Hall. specialize (Hall v Hv).
      unfold numericKey in Hall; simpl in Hall. rewrite Er in Hall; simpl in Hall.
      destruct (ranking v) as [rv|] eqn:Ev; [|reflexivity].
      simpl in Hall. exfalso.
      assert (rv < MAX_SAFE_INTEGER)
        by (apply (Hbound v rv); [right; assumption | assumption]).
      lra.
Qed.

(** Ascending, the sort by ranking does put the records without a ranking
    last, as the comment in the comparator says. *)
Lemma sort_ranking_asc_unranked_last (l : list University) :
  (forall u r, In u l -> ranking u = Some r -> r < MAX_SAFE_INTEGER) ->
  unrankedLast (sortUniversities l (Some by_ranking) asc) = true.
Proof.
  intros Hbound. simpl. apply StronglySorted_unrankedLast.
  - intros u r Hu. apply Hbound.
    eapply Permutation_in; [apply sort_perm | exact Hu].
  - apply sort_sorted. apply compareBy_asc. reflexivity.
Qed.

(** Descending, it does the opposite: as soon as the list holds a record
    without a ranking and a record with one, a record without a ranking
    comes before a ranked one. *)
Lemma sort_ranking_desc_unranked_first (l : list University) :
  (forall u r, In u l -> ranking u = Some r -> r < MAX_SAFE_INTEGER) ->
  (exists u, In u l /\ ranking u = None) ->
  (exists v r, In v l /\ ranking v = Some r) ->
  unrankedLast (sortUniversities l (Some by_ranking) desc) = false.
Proof.
  intros Hbound (u & Hu & Eu) (v & r & Hv & Ev). simpl.
  pose proof (sort_perm (compareBy by_ranking desc) l) as Hperm.
  assert (Hs : StronglySorted
                 (fun a b => numericKey by_ranking b <= numericKey by_ranking a)
                 (sort (compareBy by_ranking desc) l)).
  { apply StronglySorted_weaken
      with (R := fun a b => - numericKey by_ranking a <= - numericKey by_ranking b).
    { intros a b; simpl; lra. }
    apply sort_sorted, compareBy_desc. reflexivity. }
  apply (Permutation_in _ (Permutation_sym Hperm)) in Hu, Hv.
  assert (Hbound' : forall w rw, In w (sort (compareBy by_ranking desc) l) ->
                                 ranking w = Some rw -> rw < MAX_SAFE_INTEGER).
  { intros w rw Hw. apply Hbound. eapply Permutation_in; eassumption. }
  destruct (sort (compareBy by_ranking desc) l) as [| x s]; [contradiction|].
  inversion Hs as [| ? ? _ Hall]; subst. rewrite Forall_forall in Hall.
  simpl. destruct (ranking x) as [rx|] eqn:Ex.
  - exfalso. destruct Hu as [-> | Hu]; [congruence|].
    specialize (Hall u Hu). unfold numericKey in Hall; simpl in Hall.
    rewrite Eu, Ex in Hall; simpl in Hall.
    assert (rx < MAX_SAFE_INTEGER) by (apply (Hbound' x rx); [left; reflexivity | assumption]).
    lra.
  - destruct Hv as [-> | Hv]; [congruence|].
    apply not_true_iff_false. intros Hall'.
    rewrite forallb_forall in Hall'. specialize (Hall' v Hv).
    rewrite Ev in Hall'. discriminate.
Qed.

(** C2. Descending, the sort by ranking puts a record without a ranking
    before the ranked ones: on a record without a ranking followed by one
    ranked 7 it returns the two in that order, and the claimed order fails. *)
Theorem C2_descending_puts_unranked_first :
  let unranked := sample "a" (100 # 1) None true in
  let ranked := sample "b" (200 # 1) (Some (7 # 1)) false in
  sortUniversities [unranked; ranked] (Some by_ranking) desc = [unranked; ranked]
  /\ sortUniversities [ranked; unranked] (Some by_ranking) desc = [unranked; ranked]
  /\ unrankedLast (sortUniversities [unranked; ranked] (Some by_ranking) desc) = false
  /\ unrankedLast (sortUniversities [unranked; ranked] (Some by_ranking) asc) = true.
Proof.
  cbv zeta. repeat split; vm_compute; reflexivity.
Qed.

(** ** Pagination *)

Lemma filterUniversities_inactive (fs : UniversityFilters) :
  noActiveFilter fs = true -> filterUniversities fs = universities.
Proof.
  unfold noActiveFilter. rewrite !andb_true_iff, !negb_true_iff.
  intros H. decompose [and] H; clear H.
  unfold filterUniversities; cbv zeta.
  repeat match goal with H : _ = false |- _ => rewrite H; clear H end.
  reflexivity.
Qed.

(** C9. When no filter of the request is active, the total reported is the
    size of the catalog. *)
Theorem C9_total_without_filters (fs : UniversityFilters) :
  noActiveFilter fs = true ->
  total (pagination (getUniversities fs)) = List.length universities.
Proof.
  intros Hno. unfold getUniversities, paginateResults; cbv zeta; simpl.
  rewrite (filterUniversities_inactive fs Hno).
  apply Permutation_length, sortUniversities_perm.
Qed.

Lemma ToIntegerOrInfinity_whole (q : Q) (z : Z) :
  q == inject_Z z -> ToIntegerOrInfinity q = z.
Proof.
  unfold Qeq, ToIntegerOrInfinity; simpl. intros H.
  rewrite Z.mul_1_r in H. rewrite H. apply Z.quot_mul. discriminate.
Qed.

Lemma firstn_clip {A} (n : nat) (l : list A) :
  firstn (Nat.min n (List.length l)) l = firstn n l.
Proof.
  destruct (Nat.le_ge_cases n (List.length l)) as [Hle | Hge].
  - rewrite Nat.min_l by assumption. reflexivity.
  - rewrite Nat.min_r by assumption.
    rewrite firstn_all. symmetry. apply firstn_all2. assumption.
Qed.

(** With whole bounds, the first not negative, [slice] is the window of
    the given width that starts at the given index. *)
Lemma slice_window {A} (l : list A) (start end_ : Q) (s w : Z) :
  (0 <= s)%Z -> (0 <= w)%Z ->
  start == inject_Z s -> end_ == inject_Z (s + w) ->
  slice l start end_ = firstn (Z.to_nat w) (skipn (Z.to_nat s) l).
Proof.
  intros Hs Hw Hstart Hend. unfold slice, relative_index.
  rewrite (ToIntegerOrInfinity_whole _ _ Hstart), (ToIntegerOrInfinity_whole _ _ Hend).
  destruct (Z.ltb_spec s 0) as [|_]; [lia|].
  destruct (Z.ltb_spec (s + w) 0) as [|_]; [lia|].
  destruct (Z.le_gt_cases s (Z.of_nat (List.length l))) as [Hin | Hout].
  - rewrite (Z.min_l s) by assumption.
    rewrite <- (firstn_clip (Z.to_nat w)).
    f_equal. rewrite length_skipn. lia.
  - rewrite (Z.min_r s) by lia. rewrite (Z.min_r (s + w)) by lia.
    rewrite Z.sub_diag. simpl.
    rewrite (skipn_all2 l) by lia. rewrite firstn_nil. reflexivity.
Qed.

(** [Math.ceil] of a quotient of whole numbers is the least whole number
    whose product with the divisor reaches the dividend. *)
Lemma Math_ceil_quotient (n : Z) (q : Q) (d : Z) :
  (0 < d)%Z -> q == inject_Z d ->
  ((Math_ceil (inject_Z n / q) - 1) * d < n <= Math_ceil (inject_Z n / q) * d)%Z.
Proof.
  intros Hd Hq. unfold Math_ceil.
  assert (Hdq : inject_Z 0 < inject_Z d) by (rewrite <- Zlt_Qlt; assumption).
  set (x := inject_Z n / q).
  assert (Hx : x * inject_Z d == inject_Z n).
  { unfold x. rewrite Hq. field. intros H0. rewrite H0 in Hdq. discriminate. }
  pose proof (Qle_ceiling x) as Hup.
  pose proof (Qceiling_lt x) as Hlo.
  split.
  - rewrite Zlt_Qlt, inject_Z_mult, <- Hx.
    apply Qmult_lt_compat_r; assumption.
  - rewrite Zle_Qle, inject_Z_mult, <- Hx.
    apply Qmult_le_compat_r; [assumption | apply Qlt_le_weak; assumption].
Qed.

Lemma paginateResults_whole (us : list University) (page limit : Q) (P L : Z) :
  (1 <= P)%Z -> (1 <= L)%Z ->
  page == inject_Z P -> limit == inject_Z L ->
  let '(data, total, totalPages) := paginateResults us page limit in
  total = List.length us
  /\ ((totalPages - 1) * L < Z.of_nat total <= totalPages * L)%Z
  /\ data = firstn (Z.to_nat L) (skipn (Z.to_nat ((P - 1) * L)) us).
Proof.
  intros HP HL Hpage Hlimit. unfold paginateResults; cbv zeta.
  split; [reflexivity | split].
  - apply Math_ceil_quotient; [lia | assumption].
  - apply slice_window; try nia.
    + rewrite Hpage, Hlimit, inject_Z_mult.
      unfold Z.sub. rewrite inject_Z_plus. reflexivity.
    + rewrite Hpage, Hlimit, inject_Z_plus, inject_Z_mult.
      unfold Z.sub. rewrite inject_Z_plus. reflexivity.
Qed.

(** C4. For a request whose page and limit are whole numbers, at least 1:
    the total is the length of the filtered and ordered sequence, the number
    of pages is the ceiling of total over limit, the data are the window of
    [limit] records starting at index [(page - 1) * limit], so at most
    [limit] and at most [max 0 (total - (page - 1) * limit)] records, and a
    page after the last one is empty. *)
Theorem C4_pagination_of_whole_pages (fs : UniversityFilters) (P L : Z) :
  (1 <= P)%Z -> (1 <= L)%Z ->
  page fs == inject_Z P -> limit fs == inject_Z L ->
  let ordered := sortUniversities (filterUniversities fs) (sortBy fs) (sortOrder fs) in
  let r := getUniversities fs in
  let n := Z.of_nat (List.length ordered) in
  let start := ((P - 1) * L)%Z in
  total (pagination r) = List.length ordered
  /\ ((totalPages (pagination r) - 1) * L < n <= totalPages (pagination r) * L)%Z
  /\ data r = firstn (Z.to_nat L) (skipn (Z.to_nat start) ordered)
  /\ (Z.of_nat (List.length (data r)) <= L)%Z
  /\ (Z.of_nat (List.length (data r)) <= Z.max 0 (n - start))%Z
  /\ ((totalPages (pagination r) < P)%Z -> data r = []).
Proof.
  intros HP HL Hpage Hlimit ordered r n start.
  pose proof (paginateResults_whole ordered (page fs) (limit fs) P L
                HP HL Hpage Hlimit) as H.
  unfold r, getUniversities; cbv zeta. fold ordered.
  destruct (paginateResults ordered (page fs) (limit fs)) as [[d t] tp].
  destruct H as (Ht & Htp & Hd). simpl. subst t d. fold n in Htp. fold start.
  assert (Hstart : (0 <= start)%Z) by (unfold start; nia).
  assert (Hlen : List.length (firstn (Z.to_nat L) (skipn (Z.to_nat start) ordered))
                 = Nat.min (Z.to_nat L) (List.length ordered - Z.to_nat start)).
  { rewrite length_firstn, length_skipn. reflexivity. }
  repeat split; try (apply Htp).
  - rewrite Hlen. lia.
  - rewrite Hlen. unfold n. lia.
  - intros Hbeyond. rewrite skipn_all2; [apply firstn_nil|].
    unfold n, start in *. nia.
Qed.

(** ** Looking records up by identifier *)

Lemma length_filter_either {A} (p q : A -> bool) (l : list A) :
  (forall x, p x = true -> q x = true -> False) ->
  List.length (filter (fun x => p x || q x) l)
  = (List.length (filter p l) + List.length (filter q l))%nat.
Proof.
  intros Hpq. induction l as [| x l IH]; simpl; [reflexivity|].
  destruct (p x) eqn:Ep; destruct (q x) eqn:Eq; simpl; rewrite IH; try lia.
  exfalso. eauto.
Qed.

Lemma filter_id_absent (c : string) (l : list University) :
  ~ In c (map id l) -> filter (fun u => String.eqb (id u) c) l = [].
Proof.
  induction l as [| x l IH]; cbn [filter map In]; intros Hc; [reflexivity|].
  destruct (String.eqb_spec (id x) c) as [E | _].
  - exfalso. apply Hc. left; assumption.
  - apply IH. intros Hin. apply Hc. right; assumption.
Qed.

Lemma filter_id_present (c : string) (l : list University) :
  NoDup (map id l) -> In c (map id l) ->
  List.length (filter (fun u => String.eqb (id u) c) l) = 1%nat.
Proof.
  induction l as [| x l IH]; cbn [filter map In]; intros Hnd Hc; [contradiction|].
  inversion Hnd as [| ? ? Hx Hnd']; subst.
  destruct (String.eqb_spec (id x) c) as [E | E].
  - subst c. rewrite (filter_id_absent _ _ Hx). reflexivity.
  - destruct Hc as [Hc | Hc]; [contradiction|]. apply IH; assumption.
Qed.

Lemma filter_id_count (c : string) (l : list University) :
  NoDup (map id l) ->
  (In c (map id l) /\ List.length (filter (fun u => String.eqb (id u) c) l) = 1%nat)
  \/ (~ In c (map id l) /\ List.length (filter (fun u => String.eqb (id u) c) l) = 0%nat).
Proof.
  intros Hnd. destruct (in_dec string_dec c (map id l)) as [Hin | Hout].
  - left. split; [assumption | apply filter_id_present; assumption].
  - right. split; [assumption|]. rewrite filter_id_absent by assumption. reflexivity.
Qed.

Lemma getUniversitiesByIds_pair (a b : string) :
  getUniversitiesByIds [a; b]
  = filter (fun u => String.eqb (id u) a || String.eqb (id u) b) universities.
Proof.
  unfold getUniversitiesByIds, includes. apply filter_ext.
  intros u; simpl. rewrite orb_false_r. reflexivity.
Qed.

(** With unique identifiers in the catalog, a pair of identifiers finds two
    records exactly when the two differ and both are in the catalog. *)
Lemma getUniversitiesByIds_two (a b : string) :
  NoDup (map id universities) ->
  (List.length (getUniversitiesByIds [a; b]) = 2%nat
   <-> a <> b /\ In a (map id universities) /\ In b (map id universities)).
Proof.
  clear toLowerCase localeCompare getFilterOptions.
  intros Hnd. rewrite getUniversitiesByIds_pair.
  destruct (string_dec a b) as [-> | Hab].
  - rewrite (filter_ext _ (fun u => String.eqb (id u) b))
      by (intros u; apply orb_diag).
    destruct (filter_id_count b universities Hnd) as [[_ H] | [_ H]];
      rewrite H; split; intros H'; try discriminate; destruct H'; congruence.
  - rewrite length_filter_either.
    2:{ intros u Ha Hb. apply String.eqb_eq in Ha, Hb. congruence. }
    destruct (filter_id_count a universities Hnd) as [[Ha Ha'] | [Ha Ha']];
      destruct (filter_id_count b universities Hnd) as [[Hb Hb'] | [Hb Hb']];
      rewrite Ha', Hb'; simpl; split; intros H'; try discriminate; try tauto.
Qed.

Lemma getUniversitiesByIds_swap (a b : string) :
  getUniversitiesByIds [a; b] = getUniversitiesByIds [b; a].
Proof.
  rewrite !getUniversitiesByIds_pair. apply filter_ext.
  intros u. apply orb_comm.
Qed.

(** Keeping some records of a list keeps their identifiers unique. *)
Lemma filter_ids_unique (keep : University -> bool) (us : list University) :
  NoDup (map id us) -> NoDup (map id (filter keep us)).
Proof.
  intros Hnd. induction us as [| x us IH]; cbn [filter map] in *; [constructor|].
  inversion Hnd as [| ? ? Hx Hnd']; subst.
  destruct (keep x); cbn [map]; [|auto].
  constructor; [|auto].
  intros Hin. apply Hx. apply in_map_iff in Hin.
  destruct Hin as (y & Hy & Hin). apply filter_In in Hin.
  apply in_map_iff. exists y. tauto.
Qed.

(** ** The comparison endpoint *)

Lemma parseIds_truthy (p : string) (a : string) (rest : list string) :
  parseIds p = a :: rest -> truthy_string p = true.
Proof.
  destruct p; [discriminate | reflexivity].
Qed.

(** What [GET] does once the parameter holds two identifiers. *)
Lemma GET_pair (p a b : string) :
  parseIds p = [a; b] ->
  GET (Some p)
  = match getUniversitiesByIds [a; b] with
    | [uni1; uni2] =>
        json (ComparisonBody
                (mkUniversityComparison (uni1, uni2) (compareMetrics uni1 uni2)))
             200
    | _ => json (ErrorBody "One or both universities not found") 404
    end.
Proof.
  intros Hp. unfold GET.
  rewrite (parseIds_truthy p a [b] Hp), Hp. simpl.
  destruct (getUniversitiesByIds [a; b]) as [| u1 [| u2 [| u3 rest]]]; reflexivity.
Qed.

Lemma GET_success (idsParam : option string) (c : UniversityComparison) :
  GET idsParam = json (ComparisonBody c) OK ->
  exists p a b uni1 uni2,
    idsParam = Some p /\ parseIds p = [a; b]
    /\ getUniversitiesByIds [a; b] = [uni1; uni2]
    /\ c = mkUniversityComparison (uni1, uni2) (compareMetrics uni1 uni2).
Proof.
  unfold GET. destruct idsParam as [p|]; [|discriminate].
  destruct (truthy_string p); simpl; [|discriminate].
  destruct (parseIds p) as [| a [| b [| x rest]]] eqn:Hp; simpl; try discriminate.
  destruct (getUniversitiesByIds [a; b]) as [| u1 [| u2 [| u3 rest]]] eqn:Hf;
    simpl; try discriminate.
  intros H. injection H as H. exists p, a, b, u1, u2. subst c. auto.
Qed.

(** C3. With unique identifiers in the catalog: the comparison fails with
    InvalidArgument when the parameter is missing or does not hold exactly
    two non-empty identifiers, a single identifier included; and it fails
    with NotFound when it holds two identifiers of which one has no record
    in the catalog, or which are the same identifier twice. *)
Theorem C3_compare_failures (idsParam : option string) :
  NoDup (map id universities) ->
  (idsParam = None -> status (GET idsParam) = InvalidArgument)
  /\ (forall p, idsParam = Some p -> List.length (parseIds p) <> 2%nat ->
        status (GET idsParam) = InvalidArgument)
  /\ (forall p a b, idsParam = Some p -> parseIds p = [a; b] ->
        ~ In a (map id universities) \/ ~ In b (map id universities) \/ a = b ->
        status (GET idsParam) = NotFound).
Proof.
  clear toLowerCase localeCompare getFilterOptions.
  intros Hnd. split; [|split].
  - intros ->. reflexivity.
  - intros p -> Hlen. unfold GET.
    destruct (truthy_string p); simpl; [|reflexivity].
    destruct (Nat.eqb_spec (List.length (parseIds p)) 2); [contradiction|].
    reflexivity.
  - intros p a b -> Hp Hbad. rewrite (GET_pair p a b Hp).
    pose proof (getUniversitiesByIds_two a b Hnd) as Htwo.
    destruct (getUniversitiesByIds [a; b]) as [| u1 [| u2 [| u3 rest]]];
      try reflexivity.
    exfalso. destruct Htwo as [Htwo _]. specialize (Htwo eq_refl). tauto.
Qed.

Lemma truthy_positive (r : Q) : 0 < r -> truthy_number r = true.
Proof.
  intros Hr. unfold truthy_number. apply negb_true_iff.
  destruct (Qeq_bool r 0) eqn:E; [|reflexivity].
  apply Qeq_bool_iff in E. lra.
Qed.

(** C6. When every ranking in the catalog is positive and the comparison
    succeeds with the pair [(A, B)], both are records of the catalog, the
    three plain metrics are the absolute differences of tuition, acceptance
    rate and employment rate of [A] and [B], the ranking difference is the
    absolute difference of the rankings when both have one and is absent
    otherwise, and no metric is negative.  With unique identifiers, [A] and
    [B] are the records of the two identifiers requested. *)
Theorem C6_compare_metrics (idsParam : option string) (c : UniversityComparison) :
  (forall u r, In u universities -> ranking u = Some r -> 0 < r) ->
  GET idsParam = json (ComparisonBody c) OK ->
  let A := fst (c_universities c) in
  let B := snd (c_universities c) in
  let m := comparison c in
  In A universities /\ In B universities
  /\ tuitionDifference m = Qabs (tuitionFee A - tuitionFee B)
  /\ acceptanceRateDifference m = Qabs (acceptanceRate A - acceptanceRate B)
  /\ employmentRateDifference m = Qabs (employmentRate A - employmentRate B)
  /\ rankingDifference m
     = match ranking A, ranking B with
       | Some rA, Some rB => Some (Qabs (rA - rB))
       | _, _ => None
       end
  /\ 0 <= tuitionDifference m
  /\ 0 <= acceptanceRateDifference m
  /\ 0 <= employmentRateDifference m
  /\ (forall d, rankingDifference m = Some d -> 0 <= d)
  /\ (NoDup (map id universities) ->
      forall p a b, idsParam = Some p -> parseIds p = [a; b] ->
        (id A = a /\ id B = b) \/ (id A = b /\ id B = a)).
Proof.
  intros Hpos Hget.
  destruct (GET_success idsParam c Hget) as (p & a & b & uni1 & uni2 & -> & Hp & Hf & ->).
  cbn [c_universities comparison fst snd compareMetrics tuitionDifference
       acceptanceRateDifference employmentRateDifference rankingDifference].
  assert (H1 : In uni1 (getUniversitiesByIds [a; b])) by (rewrite Hf; simpl; auto).
  assert (H2 : In uni2 (getUniversitiesByIds [a; b])) by (rewrite Hf; simpl; auto).
  unfold getUniversitiesByIds in H1, H2.
  apply filter_In in H1, H2. destruct H1 as [H1 I1], H2 as [H2 I2].
  assert (Hrank :
    match ranking uni1, ranking uni2 with
    | Some r1, Some r2 =>
        if truthy_number r1 && truthy_number r2
        then Some (Math_abs (r1 - r2)) else None
    | _, _ => None
    end
    = match ranking uni1, ranking uni2 with
      | Some rA, Some rB => Some (Qabs (rA - rB))
      | _, _ => None
      end).
  { destruct (ranking uni1) as [r1|] eqn:E1; [|reflexivity].
    destruct (ranking uni2) as [r2|] eqn:E2; [|reflexivity].
    rewrite (truthy_positive r1 (Hpos uni1 r1 H1 E1)).
    rewrite (truthy_positive r2 (Hpos uni2 r2 H2 E2)). reflexivity. }
  repeat split; try assumption; try reflexivity; try apply Qabs_nonneg.
  - rewrite Hrank. intros d Hd.
    destruct (ranking uni1) as [r1|]; [|discriminate].
    destruct (ranking uni2) as [r2|]; [|discriminate].
    injection Hd as <-. exact (Qabs_nonneg (r1 - r2)).
  - intros Hnd p' a' b' Hsome Hp'. injection Hsome as <-.
    rewrite Hp in Hp'. injection Hp' as <- <-.
    assert (Hids : NoDup (map id (getUniversitiesByIds [a; b])))
      by (apply filter_ids_unique; assumption).
    rewrite Hf in Hids. simpl in Hids.
    inversion Hids as [| ? ? Hne _]; subst.
    unfold includes in I1, I2. simpl in I1, I2.
    rewrite orb_false_r in I1, I2.
    apply orb_true_iff in I1, I2.
    rewrite !String.eqb_eq in I1, I2.
    simpl in Hne.
    destruct I1 as [I1 | I1]; destruct I2 as [I2 | I2]; auto;
      exfalso; apply Hne; left; congruence.
Qed.

(** C7. For two different identifiers that are both in a catalog with
    unique identifiers, asking for [a,b] and asking for [b,a] both succeed
    with the same four difference values; the pair returned is the same as
    well, and holds the records of [a] and [b]. *)
Theorem C7_compare_symmetric (p q a b : string) :
  NoDup (map id universities) ->
  a <> b -> In a (map id universities) -> In b (map id universities) ->
  parseIds p = [a; b] -> parseIds q = [b; a] ->
  exists c1 c2,
    GET (Some p) = json (ComparisonBody c1) OK
    /\ GET (Some q) = json (ComparisonBody c2) OK
    /\ tuitionDifference (comparison c1) = tuitionDifference (comparison c2)
    /\ rankingDifference (comparison c1) = rankingDifference (comparison c2)
    /\ acceptanceRateDifference (comparison c1)
       = acceptanceRateDifference (comparison c2)
    /\ employmentRateDifference (comparison c1)
       = employmentRateDifference (comparison c2)
    /\ c_universities c1 = c_universities c2.
Proof.
  clear toLowerCase localeCompare getFilterOptions.
  intros Hnd Hab Ha Hb Hp Hq.
  rewrite (GET_pair p a b Hp), (GET_pair q b a Hq).
  rewrite <- (getUniversitiesByIds_swap a b).
  pose proof (getUniversitiesByIds_two a b Hnd) as [_ Htwo].
  specialize (Htwo (conj Hab (conj Ha Hb))).
  destruct (getUniversitiesByIds [a; b]) as [| u1 [| u2 [| u3 rest]]];
    try discriminate.
  eexists; eexists. repeat split; reflexivity.
Qed.

(** ** More on looking records up *)

Lemma includes_In (l : list string) (x : string) :
  includes l x = true <-> In x l.
Proof.
  unfold includes. rewrite existsb_exists. split.
  - intros (y & Hy & E). apply String.eqb_eq in E. subst y. assumption.
  - intros Hx. exists x. split; [assumption | apply String.eqb_refl].
Qed.

Lemma find_first {A} (p : A -> bool) (l : list A) (x : A) :
  find p l = Some x ->
  exists before after,
    l = (before ++ x :: after)%list /\ p x = true /\ Forall (fun y => p y = false) before.
Proof.
  induction l as [| y l IH]; cbn [find]; [discriminate|].
  destruct (p y) eqn:Ey.
  - intros E. injection E as ->. exists [], l. auto.
  - intros E. destruct (IH E) as (before & after & -> & Hx & Hb).
    exists (y :: before), after. auto.
Qed.

Lemma find_head_filter {A} (p : A -> bool) (l : list A) :
  find p l = hd_error (filter p l).
Proof.
  induction l as [| y l IH]; cbn [find filter]; [reflexivity|].
  destruct (p y); [reflexivity | exact IH].
Qed.

(** X1. [getUniversityById] returns the first record of the catalog that
    has the identifier asked for, and no record exactly when no record of
    the catalog has it. *)
Theorem X1_getUniversityById_first_match (i : string) :
  (forall u, getUniversityById i = Some u ->
     exists before after,
       universities = (before ++ u :: after)%list
       /\ id u = i /\ ~ In i (map id before))
  /\ (getUniversityById i = None <-> ~ In i (map id universities)).
Proof.
  unfold getUniversityById. split.
  - intros u Hu. destruct (find_first _ _ _ Hu) as (before & after & E & Hid & Hb).
    exists before, after. apply String.eqb_eq in Hid.
    split; [assumption | split; [assumption|]].
    intros Hin. apply in_map_iff in Hin. destruct Hin as (v & Hv & Hin).
    rewrite Forall_forall in Hb. specialize (Hb v Hin).
    apply String.eqb_neq in Hb. contradiction.
  - split.
    + intros Hnone Hin. apply in_map_iff in Hin. destruct Hin as (v & Hv & Hin).
      pose proof (find_none _ _ Hnone v Hin) as Hne.
      apply String.eqb_neq in Hne. contradiction.
    + intros Hout. destruct (find _ universities) as [u|] eqn:E; [|reflexivity].
      exfalso. apply find_some in E. destruct E as [Hin Hid].
      apply String.eqb_eq in Hid. apply Hout. apply in_map_iff. eauto.
Qed.

(** X2. Looking one identifier up with [getUniversitiesByIds] finds what
    [getUniversityById] finds: the single lookup is the head of the list
    lookup, and with unique identifiers the list lookup holds that record
    and nothing else. *)
Theorem X2_single_lookup_agrees (i : string) :
  getUniversityById i = hd_error (getUniversitiesByIds [i])
  /\ (NoDup (map id universities) ->
      getUniversitiesByIds [i]
      = match getUniversityById i with Some u => [u] | None => [] end).
Proof.
  assert (Hsame : getUniversitiesByIds [i]
                  = filter (fun u => String.eqb (id u) i) universities).
  { unfold getUniversitiesByIds, includes. apply filter_ext.
    intros u. cbn [existsb]. apply orb_false_r. }
  assert (Hhead : getUniversityById i = hd_error (getUniversitiesByIds [i])).
  { rewrite Hsame. apply find_head_filter. }
  split; [exact Hhead|].
  intros Hnd. rewrite Hhead, Hsame.
  destruct (filter_id_count i universities Hnd) as [[_ Hlen] | [_ Hlen]];
    destruct (filter (fun u => String.eqb (id u) i) universities) as [| u [| v rest]];
    try discriminate; reflexivity.
Qed.

(** X3. [getUniversitiesByIds] depends on which identifiers are asked for,
    not on their order or on how often one is repeated; the records come in
    catalog order. *)
Theorem X3_lookup_ignores_order_and_repeats (ids1 ids2 : list string) :
  (forall x, In x ids1 <-> In x ids2) ->
  getUniversitiesByIds ids1 = getUniversitiesByIds ids2
  /\ subsequence (getUniversitiesByIds ids1) universities.
Proof.
  intros Hsame. split.
  - unfold getUniversitiesByIds. apply filter_ext. intros u.
    apply eq_true_iff_eq. rewrite !includes_In. apply Hsame.
  - apply subsequence_filter.
Qed.

(** X4. With unique identifiers in the catalog, [getUniversitiesByIds]
    returns one record for each requested identifier that is in the catalog
    and nothing for the others: the identifiers found are different from
    one another, they are the requested ones that the catalog has, and
    there are no more records than identifiers asked for. *)
Theorem X4_lookup_one_record_per_identifier (ids : list string) :
  NoDup (map id universities) ->
  NoDup (map id (getUniversitiesByIds ids))
  /\ (forall x, In x (map id (getUniversitiesByIds ids))
                <-> In x ids /\ In x (map id universities))
  /\ (List.length (getUniversitiesByIds ids) <= List.length ids)%nat.
Proof.
  clear toLowerCase localeCompare getFilterOptions.
  intros Hnd.
  assert (Hunique : NoDup (map id (getUniversitiesByIds ids)))
    by (apply filter_ids_unique; assumption).
  assert (Hmem : forall x, In x (map id (getUniversitiesByIds ids))
                           <-> In x ids /\ In x (map id universities)).
  { intros x. unfold getUniversitiesByIds. rewrite !in_map_iff. split.
    - intros (u & <- & Hu). apply filter_In in Hu. destruct Hu as [Hu Hi].
      apply includes_In in Hi. eauto.
    - intros (Hx & u & <- & Hu). exists u. split; [reflexivity|].
      apply filter_In. split; [assumption | apply includes_In; assumption]. }
  split; [exact Hunique | split; [exact Hmem|]].
  rewrite <- (length_map id).
  apply NoDup_incl_length; [exact Hunique|].
  intros x Hx. apply Hmem in Hx. tauto.
Qed.

(** ** More on the stable sort *)

Section SortStable.

Context {A : Type}.
Variable cmp : A -> A -> Q.
Variable key : A -> Q.
Hypothesis cmp_key : ordersBy cmp key.

Lemma sort_insert_keeps_others (p : A -> bool) (x : A) (s : list A) :
  p x = false -> filter p (sort_insert cmp x s) = filter p s.
Proof using Type.
  intros Hx. induction s as [| y s IH]; cbn [sort_insert filter].
  - rewrite Hx. reflexivity.
  - destruct (Qle_bool (cmp x y) 0); cbn [filter].
    + rewrite Hx. reflexivity.
    + rewrite IH. reflexivity.
Qed.

Lemma sort_insert_goes_first (k : Q) (x : A) (s : list A) :
  key x == k ->
  filter (fun u => Qeq_bool (key u) k) (sort_insert cmp x s)
  = x :: filter (fun u => Qeq_bool (key u) k) s.
Proof using cmp_key.
  intros Hx.
  assert (Hpx : Qeq_bool (key x) k = true) by (apply Qeq_bool_iff; assumption).
  induction s as [| y s IH]; cbn [sort_insert filter].
  - rewrite Hpx. reflexivity.
  - destruct (Qle_bool (cmp x y) 0) eqn:E; cbn [filter].
    + rewrite Hpx. reflexivity.
    + assert (Hlt : key y < key x).
      { apply Qnot_le_lt. intros Hle. apply cmp_key, Qle_bool_iff in Hle. congruence. }
      destruct (Qeq_bool (key y) k) eqn:Ey; [|exact IH].
      apply Qeq_bool_iff in Ey. exfalso. lra.
Qed.

Lemma sort_stable (k : Q) (l : list A) :
  filter (fun u => Qeq_bool (key u) k) (sort cmp l)
  = filter (fun u => Qeq_bool (key u) k) l.
Proof using cmp_key.
  induction l as [| x l IH]; [reflexivity|].
  cbn [sort fold_right filter]. fold (sort cmp l).
  destruct (Qeq_bool (key x) k) eqn:Ex.
  - apply Qeq_bool_iff in Ex. rewrite (sort_insert_goes_first k x _ Ex), IH.
    reflexivity.
  - rewrite sort_insert_keeps_others by assumption. exact IH.
Qed.

Lemma sort_of_sorted (l : list A) :
  StronglySorted (fun a b => key a <= key b) l -> sort cmp l = l.
Proof using cmp_key.
  induction 1 as [| x l Hs IH Hall]; [reflexivity|].
  cbn [sort fold_right]. fold (sort cmp l). rewrite IH.
  destruct l as [| y l]; [reflexivity|]. cbn [sort_insert].
  inversion Hall as [| ? ? Hxy _]; subst.
  apply cmp_key, Qle_bool_iff in Hxy. rewrite Hxy. reflexivity.
Qed.

End SortStable.

(** X5. Sorting, by any field and in either direction, returns the records
    it was given: each as often as before, none added, none lost. *)
Theorem X5_sort_is_a_rearrangement (us : list University) (by_ : option SortBy)
    (o : SortOrder) :
  Permutation (sortUniversities us by_ o) us
  /\ List.length (sortUniversities us by_ o) = List.length us
  /\ (forall u, In u (sortUniversities us by_ o) <-> In u us).
Proof.
  assert (Hp : Permutation (sortUniversities us by_ o) us).
  { destruct by_ as [b|]; cbn [sortUniversities];
      [apply sort_perm | apply Permutation_refl]. }
  split; [exact Hp | split].
  - apply Permutation_length. exact Hp.
  - intros u. split; apply Permutation_in; [|apply Permutation_sym]; exact Hp.
Qed.

(** X6. For a numeric sort field the result is in order: ascending, no
    record has a smaller key than a record before it; descending, none has
    a larger one. *)
Theorem X6_sort_orders_by_key (us : list University) (by_ : SortBy) :
  numeric by_ = true ->
  StronglySorted (fun a b => numericKey by_ a <= numericKey by_ b)
    (sortUniversities us (Some by_) asc)
  /\ StronglySorted (fun a b => numericKey by_ b <= numericKey by_ a)
       (sortUniversities us (Some by_) desc).
Proof.
  intros Hnum. cbn [sortUniversities]. split.
  - apply sort_sorted, compareBy_asc. assumption.
  - apply StronglySorted_weaken
      with (R := fun a b => - numericKey by_ a <= - numericKey by_ b).
    { intros a b; simpl; lra. }
    apply sort_sorted, compareBy_desc. assumption.
Qed.

(** X7. For a numeric sort field the sort is stable in both directions:
    the records with one and the same key come out in the order they went
    in. *)
Theorem X7_sort_keeps_ties_in_input_order (us : list University) (by_ : SortBy)
    (o : SortOrder) (k : Q) :
  numeric by_ = true ->
  filter (fun u => Qeq_bool (numericKey by_ u) k) (sortUniversities us (Some by_) o)
  = filter (fun u => Qeq_bool (numericKey by_ u) k) us.
Proof.
  intros Hnum. cbn [sortUniversities]. destruct o.
  - apply sort_stable, compareBy_asc. assumption.
  - assert (Hflip : forall u, Qeq_bool (numericKey by_ u) k
                              = Qeq_bool (- numericKey by_ u) (- k)).
    { intros u. apply eq_true_iff_eq. rewrite !Qeq_bool_iff. split; intros H; lra. }
    rewrite (filter_ext _ _ Hflip (sort _ us)), (filter_ext _ _ Hflip us).
    apply (sort_stable (compareBy by_ desc) (fun u => - numericKey by_ u)).
    apply compareBy_desc. assumption.
Qed.

(** X8. Sorting a second time by the same numeric field in the same
    direction changes nothing. *)
Theorem X8_sort_twice_is_sort_once (us : list University) (by_ : SortBy)
    (o : SortOrder) :
  numeric by_ = true ->
  sortUniversities (sortUniversities us (Some by_) o) (Some by_) o
  = sortUniversities us (Some by_) o.
Proof.
  intros Hnum. cbn [sortUniversities]. destruct o.
  - apply (sort_of_sorted _ (numericKey by_)); [apply compareBy_asc; assumption|].
    apply sort_sorted, compareBy_asc. assumption.
  - apply (sort_of_sorted _ (fun u => - numericKey by_ u));
      [apply compareBy_desc; assumption|].
    apply sort_sorted, compareBy_desc. assumption.
Qed.

(** ** More on pages *)

Lemma firstn_then_window {A} (a b : nat) (l : list A) :
  firstn (a + b) l = (firstn a l ++ firstn b (skipn a l))%list.
Proof.
  revert l. induction a as [| a IH]; intros l; [reflexivity|].
  destruct l as [| x l]; cbn [Nat.add firstn skipn app].
  - rewrite firstn_nil. reflexivity.
  - rewrite IH. reflexivity.
Qed.

Lemma windows_concat {A} (w n : nat) (l : list A) :
  List.concat (map (fun q => firstn w (skipn (q * w) l)) (seq 0 n)) = firstn (n * w) l.
Proof.
  induction n as [| n IH]; [reflexivity|].
  rewrite seq_S, map_app, concat_app, IH. cbn [Nat.add map List.concat].
  rewrite app_nil_r, <- firstn_then_window. f_equal. lia.
Qed.

Lemma page_window (us : list University) (limit : Q) (L : Z) (q : nat) :
  (1 <= L)%Z -> limit == inject_Z L ->
  fst (fst (paginateResults us (inject_Z (Z.of_nat (S q))) limit))
  = firstn (Z.to_nat L) (skipn (q * Z.to_nat L) us).
Proof.
  intros HL Hlimit. unfold paginateResults; cbv zeta; cbn [fst].
  replace (q * Z.to_nat L)%nat with (Z.to_nat (Z.of_nat q * L)) by nia.
  apply slice_window; try nia.
  - rewrite Hlimit, inject_Z_mult. rewrite Nat2Z.inj_succ.
    unfold Z.succ. rewrite inject_Z_plus. unfold Qminus.
    setoid_replace (inject_Z (Z.of_nat q) + inject_Z 1 + - (1))
      with (inject_Z (Z.of_nat q)) by (simpl; ring).
    reflexivity.
  - rewrite Hlimit, inject_Z_plus, inject_Z_mult. rewrite Nat2Z.inj_succ.
    unfold Z.succ. rewrite inject_Z_plus. unfold Qminus.
    setoid_replace (inject_Z (Z.of_nat q) + inject_Z 1 + - (1))
      with (inject_Z (Z.of_nat q)) by (simpl; ring).
    reflexivity.
Qed.

Lemma getUniversities_data (fs : UniversityFilters) :
  data (getUniversities fs)
  = fst (fst (paginateResults
                (sortUniversities (filterUniversities fs) (sortBy fs) (sortOrder fs))
                (page fs) (limit fs))).
Proof. reflexivity. Qed.

(** X9. Whatever page and limit are asked for, every record on the page
    returned is a record of the catalog that passes every active filter of
    the request, and the page holds no more records than the total
    reported. *)
Theorem X9_page_records_pass_the_filters (fs : UniversityFilters) :
  (forall u, In u (data (getUniversities fs)) ->
             In u universities /\ satisfiesAll fs u)
  /\ (List.length (data (getUniversities fs))
      <= total (pagination (getUniversities fs)))%nat.
Proof.
  rewrite getUniversities_data. unfold paginateResults; cbv zeta; cbn [fst].
  split.
  - intros u Hu. apply filterUniversities_spec.
    eapply Permutation_in; [apply sortUniversities_perm|].
    eapply subsequence_In; [apply subsequence_slice | exact Hu].
  - unfold getUniversities, paginateResults; cbv zeta; cbn [pagination total].
    unfold slice. rewrite length_firstn, length_skipn. lia.
Qed.

(** X10. With a whole limit, at least 1, the pages 1 to [totalPages] put
    one after the other are the filtered and ordered sequence: each of its
    records is on exactly one page, in order. *)
Theorem X10_pages_partition_the_result (fs : UniversityFilters) (L : Z) :
  (1 <= L)%Z -> limit fs == inject_Z L ->
  List.concat
    (map (fun p => data (getUniversities
                           (handlePageChange fs (inject_Z (Z.of_nat p)))))
         (seq 1 (Z.to_nat (totalPages (pagination (getUniversities fs))))))
  = sortUniversities (filterUniversities fs) (sortBy fs) (sortOrder fs).
Proof.
  intros HL Hlimit.
  set (ordered := sortUniversities (filterUniversities fs) (sortBy fs) (sortOrder fs)).
  assert (Htp : totalPages (pagination (getUniversities fs))
                = Math_ceil (inject_Z (Z.of_nat (List.length ordered)) / limit fs))
    by reflexivity.
  rewrite Htp.
  pose proof (Math_ceil_quotient (Z.of_nat (List.length ordered)) (limit fs) L
                ltac:(lia) Hlimit) as [_ Hup].
  set (tp := Math_ceil (inject_Z (Z.of_nat (List.length ordered)) / limit fs)) in *.
  rewrite <- seq_shift, map_map.
  rewrite (map_ext _ (fun q => firstn (Z.to_nat L) (skipn (q * Z.to_nat L) ordered))).
  2:{ intros q. rewrite getUniversities_data. cbn [handlePageChange page limit
        sortBy sortOrder]. apply (page_window _ (limit fs) L q HL Hlimit). }
  rewrite windows_concat. apply firstn_all2. nia.
Qed.

(** X11. With whole page and limit, at least 1: the number of pages is
    never negative and is 0 exactly when nothing matches; every page before
    the last holds [limit] records, and the last holds between 1 and
    [limit]. *)
Theorem X11_all_pages_but_the_last_are_full (fs : UniversityFilters) (P L : Z) :
  (1 <= P)%Z -> (1 <= L)%Z ->
  page fs == inject_Z P -> limit fs == inject_Z L ->
  let r := getUniversities fs in
  let tp := totalPages (pagination r) in
  (0 <= tp)%Z
  /\ (tp = 0%Z <-> total (pagination r) = 0%nat)
  /\ ((P < tp)%Z -> Z.of_nat (List.length (data r)) = L)
  /\ (P = tp -> (1 <= Z.of_nat (List.length (data r)) <= L)%Z).
Proof.
  intros HP HL Hpage Hlimit r tp.
  pose proof (paginateResults_whole
                (sortUniversities (filterUniversities fs) (sortBy fs) (sortOrder fs))
                (page fs) (limit fs) P L HP HL Hpage Hlimit) as H.
  unfold tp, r, getUniversities; cbv zeta.
  destruct (paginateResults _ (page fs) (limit fs)) as [[d t] tp'].
  destruct H as (Ht & [Hlo Hup] & Hd). cbn [pagination totalPages total data].
  assert (Hlen : List.length d
                 = Nat.min (Z.to_nat L) (t - Z.to_nat ((P - 1) * L))).
  { rewrite Hd, length_firstn, length_skipn, Ht. reflexivity. }
  split; [nia|]. split; [split; intros Hz; nia|]. split.
  - intros Hbefore. rewrite Hlen. nia.
  - intros Hlast. rewrite Hlen. nia.
Qed.

(** ** The statistics *)

Lemma StronglySorted_across {A} (R : A -> A -> Prop) (l1 l2 : list A) :
  StronglySorted R (l1 ++ l2) ->
  forall a b, In a l1 -> In b l2 -> R a b.
Proof.
  induction l1 as [| x l1 IH]; cbn [app]; intros Hs a b Ha Hb; [contradiction|].
  inversion Hs as [| ? ? Hs' Hall]; subst.
  destruct Ha as [-> | Ha].
  - rewrite Forall_forall in Hall. apply Hall, in_or_app. right; assumption.
  - apply IH; assumption.
Qed.

Lemma orZero_ranked (r : Q) : orZero (Some r) == r.
Proof.
  unfold orZero, truthy_number.
  destruct (Qeq_bool r 0) eqn:E; cbn [negb]; [|reflexivity].
  apply Qeq_bool_iff in E. symmetry. exact E.
Qed.

Lemma topRanked_is_head :
  topRanked getStatistics
  = firstn 5 (sort (fun a b => orZero (ranking a) - orZero (ranking b))
                   (filter (fun u => defined (ranking u)) universities)).
Proof.
  unfold getStatistics; cbn [topRanked].
  rewrite (slice_window _ 0 (5 # 1) 0 5); [reflexivity | lia | lia | reflexivity | reflexivity].
Qed.

(** X12. The top-ranked statistic holds the five best-ranked records of
    the catalog (all the ranked ones when there are fewer than five), best
    first: each is a ranked catalog record, rankings do not decrease along
    the list, and no ranked record left out has a smaller ranking than one
    that is in. *)
Theorem X12_topRanked_are_the_best_five :
  let top := topRanked getStatistics in
  List.length top
  = Nat.min 5 (List.length (filter (fun u => defined (ranking u)) universities))
  /\ (forall t, In t top -> In t universities /\ ranking t <> None)
  /\ StronglySorted
       (fun a b => forall ra rb,
            ranking a = Some ra -> ranking b = Some rb -> ra <= rb) top
  /\ (forall t v rt rv,
        In t top -> ranking t = Some rt ->
        In v universities -> ranking v = Some rv -> ~ In v top ->
        rt <= rv).
Proof.
  cbv zeta. rewrite topRanked_is_head.
  set (cmp := fun a b : University => orZero (ranking a) - orZero (ranking b)).
  set (ranked := filter (fun u => defined (ranking u)) universities).
  assert (Hcmp : ordersBy cmp (fun u => orZero (ranking u))).
  { intros a b. unfold cmp. lra. }
  pose proof (sort_perm cmp ranked) as Hperm.
  pose proof (sort_sorted cmp _ Hcmp ranked) as Hsorted.
  assert (Hkey : StronglySorted
                   (fun a b => forall ra rb,
                        ranking a = Some ra -> ranking b = Some rb -> ra <= rb)
                   (sort cmp ranked)).
  { eapply StronglySorted_weaken; [|exact Hsorted].
    intros a b Hab ra rb Ea Eb. cbv beta in Hab. rewrite Ea, Eb in Hab.
    rewrite !orZero_ranked in Hab. exact Hab. }
  split; [|split; [|split]].
  - rewrite length_firstn, (Permutation_length Hperm). reflexivity.
  - intros t Ht.
    assert (Hin : In t ranked).
    { eapply Permutation_in; [exact Hperm|].
      eapply subsequence_In; [apply subsequence_firstn | exact Ht]. }
    apply filter_In in Hin. destruct Hin as [Hin Hr].
    split; [assumption|]. destruct (ranking t); [discriminate | discriminate].
  - rewrite <- (firstn_skipn 5 (sort cmp ranked)) in Hkey.
    clear - Hkey. induction (firstn 5 (sort cmp ranked)) as [| x l IH].
    + constructor.
    + cbn [app] in Hkey. inversion Hkey as [| ? ? Hs Hall]; subst.
      constructor; [apply IH; assumption|].
      apply Forall_app in Hall. tauto.
  - intros t v rt rv Ht Et Hv Ev Hout.
    assert (Hvin : In v (sort cmp ranked)).
    { eapply Permutation_in; [apply Permutation_sym; exact Hperm|].
      apply filter_In. split; [assumption|]. rewrite Ev. reflexivity. }
    rewrite <- (firstn_skipn 5 (sort cmp ranked)) in Hvin, Hkey.
    apply in_app_or in Hvin. destruct Hvin as [Hvin | Hvin]; [contradiction|].
    exact (StronglySorted_across _ _ _ Hkey t v Ht Hvin rt rv Et Ev).
Qed.

Lemma fold_sum_bounds (f : University -> Q) (lo hi : Q) (l : list University) (a : Q) :
  (forall u, In u l -> lo <= f u <= hi) ->
  a + inject_Z (Z.of_nat (List.length l)) * lo
  <= fold_left (fun sum u => sum + f u) l a
  <= a + inject_Z (Z.of_nat (List.length l)) * hi.
Proof.
  revert a. induction l as [| x l IH]; intros a Hall.
  - cbn [fold_left List.length Z.of_nat]. change (inject_Z 0) with 0. split; lra.
  - cbn [fold_left]. 
    assert (Hx : lo <= f x <= hi) by (apply Hall; left; reflexivity).
    assert (Hl : forall u, In u l -> lo <= f u <= hi)
      by (intros u Hu; apply Hall; right; assumption).
    specialize (IH (a + f x) Hl).
    assert (Hn : inject_Z (Z.of_nat (List.length (x :: l)))
                 == inject_Z (Z.of_nat (List.length l)) + 1).
    { cbn [List.length]. rewrite Nat2Z.inj_succ. unfold Z.succ.
      rewrite inject_Z_plus. reflexivity. }
    rewrite Hn. destruct IH as [IHlo IHhi], Hx as [Hxlo Hxhi].
    split; lra.
Qed.

(** X13. For a catalog that is not empty, the average tuition statistic
    lies between any two whole numbers that bound every tuition fee of the
    catalog. *)
Theorem X13_avgTuitionFee_within_the_fees (lo hi : Z) :
  universities <> [] ->
  (forall u, In u universities -> inject_Z lo <= tuitionFee u <= inject_Z hi) ->
  (lo <= avgTuitionFee getStatistics <= hi)%Z.
Proof.
  intros Hne Hall. unfold getStatistics; cbn [avgTuitionFee]. unfold Math_round.
  pose proof (fold_sum_bounds tuitionFee _ _ universities 0 Hall) as [Hlo Hhi].
  set (total := fold_left (fun sum u => sum + tuitionFee u) universities 0) in *.
  set (n := inject_Z (Z.of_nat (List.length universities))) in *.
  assert (Hn : 0 < n).
  { unfold n. change 0 with (inject_Z 0). rewrite <- Zlt_Qlt.
    destruct universities; [congruence | cbn [List.length]; lia]. }
  assert (Hmean : inject_Z lo <= total / n <= inject_Z hi).
  { split.
    - apply Qle_shift_div_l; [assumption|]. rewrite Qmult_comm.
      rewrite Qplus_0_l in Hlo. exact Hlo.
    - apply Qle_shift_div_r; [assumption|]. rewrite Qmult_comm.
      rewrite Qplus_0_l in Hhi. exact Hhi. }
  destruct Hmean as [Hmlo Hmhi]. split.
  - rewrite <- (Qfloor_Z lo). apply Qfloor_resp_le. lra.
  - pose proof (Qfloor_le (total / n + (1 # 2))) as Hfl.
    apply Z.lt_succ_r. rewrite Zlt_Qlt. unfold Z.succ. rewrite inject_Z_plus.
    eapply Qle_lt_trans; [exact Hfl|]. 
    change (inject_Z 1) with 1. lra.
Qed.

Lemma nodup_length_le (l : list string) :
  (List.length (nodup string_dec l) <= List.length l)%nat.
Proof.
  induction l as [| x l IH]; cbn [nodup List.length]; [lia|].
  destruct (in_dec string_dec x l); cbn [List.length]; lia.
Qed.

Lemma nodup_length_full (l : list string) :
  List.length (nodup string_dec l) = List.length l <-> NoDup l.
Proof.
  split.
  - induction l as [| x l IH]; cbn [nodup List.length]; intros Hlen; [constructor|].
    pose proof (nodup_length_le l) as Hle.
    destruct (in_dec string_dec x l) as [Hin | Hout]; cbn [List.length] in Hlen.
    + lia.
    + constructor; [assumption | apply IH; lia].
  - intros Hnd. rewrite nodup_fixed_point by assumption. reflexivity.
Qed.

(** X14. The countries statistic counts every country once: it never
    exceeds the number of universities, equals it exactly when no two
    universities share a country, and is 0 only for an empty catalog. *)
Theorem X14_countries_counts_each_once :
  (s_countries getStatistics <= totalUniversities getStatistics)%nat
  /\ (s_countries getStatistics = totalUniversities getStatistics
      <-> NoDup (map country universities))
  /\ (s_countries getStatistics = 0%nat <-> universities = [])
  /\ (forall u, In u universities ->
        In (country u) (nodup string_dec (map country universities))).
Proof.
  unfold getStatistics, Set_size; cbn [s_countries totalUniversities].
  rewrite <- (length_map country universities).
  split; [apply nodup_length_le|].
  split; [apply nodup_length_full|].
  split.
  - split.
    + intros Hz. destruct universities as [| u us]; [reflexivity|].
      exfalso. apply length_zero_iff_nil in Hz.
      assert (Hin : In (country u) (nodup string_dec (map country (u :: us))))
        by (apply nodup_In; left; reflexivity).
      rewrite Hz in Hin. contradiction.
    + intros ->. reflexivity.
  - intros u Hu. apply nodup_In, in_map. assumption.
Qed.

(** ** More on the comparison endpoint *)

(** X15. The comparison endpoint answers 200, 400 or 404 and nothing
    else: the handler's catch-all 500 is never reached, and the body is a
    comparison exactly when the status is 200. *)
Theorem X15_compare_never_answers_500 (idsParam : option string) :
  (status (GET idsParam) = OK
   \/ status (GET idsParam) = InvalidArgument
   \/ status (GET idsParam) = NotFound)
  /\ (status (GET idsParam) = OK
      <-> exists c, body (GET idsParam) = ComparisonBody c).
Proof.
  clear toLowerCase localeCompare getFilterOptions.
  unfold GET.
  destruct idsParam as [p|];
    [destruct (truthy_string p); cbn [negb];
     [destruct (Nat.eqb (List.length (parseIds p)) 2); cbn [negb];
      [destruct (getUniversitiesByIds (parseIds p)) as [| u1 [| u2 [| u3 rest]]];
       cbn [List.length Nat.eqb negb]|]|]|];
    cbn [status body]; unfold OK, InvalidArgument, NotFound;
    (split; [auto|]);
    (split;
     [first [intros H; discriminate H | intros _; eexists; reflexivity]
     | first [intros [c Hc]; discriminate Hc | reflexivity]]).
Qed.

(** X16. With unique identifiers in the catalog, the comparison succeeds
    exactly when the parameter holds two identifiers that differ and that
    both belong to records of the catalog. *)
Theorem X16_compare_succeeds_exactly_when (idsParam : option string) :
  NoDup (map id universities) ->
  (status (GET idsParam) = OK
   <-> exists p a b,
         idsParam = Some p /\ parseIds p = [a; b] /\ a <> b
         /\ In a (map id universities) /\ In b (map id universities)).
Proof.
  clear toLowerCase localeCompare getFilterOptions.
  intros Hnd. split.
  - intros Hok. unfold GET in Hok.
    destruct idsParam as [p|]; [|discriminate].
    destruct (truthy_string p); cbn [negb] in Hok; [|discriminate].
    destruct (parseIds p) as [| a [| b [| x rest]]] eqn:Hp;
      cbn [List.length Nat.eqb negb] in Hok; try discriminate.
    exists p, a, b. split; [reflexivity | split; [exact Hp|]].
    apply (getUniversitiesByIds_two a b Hnd).
    destruct (getUniversitiesByIds [a; b]) as [| u1 [| u2 [| u3 rest]]];
      cbn [List.length Nat.eqb negb] in Hok; try discriminate. reflexivity.
  - intros (p & a & b & -> & Hp & Hab & Ha & Hb).
    rewrite (GET_pair p a b Hp).
    pose proof (proj2 (getUniversitiesByIds_two a b Hnd) (conj Hab (conj Ha Hb))) as Htwo.
    destruct (getUniversitiesByIds [a; b]) as [| u1 [| u2 [| u3 rest]]];
      try discriminate. reflexivity.
Qed.

Lemma split_not_empty (sep : ascii) (s : string) : split sep s <> [].
Proof.
  destruct s as [| c s]; cbn [split]; [discriminate|].
  destruct (Ascii.eqb c sep); [discriminate|].
  destruct (split sep s); discriminate.
Qed.

Lemma split_at_separator (sep : ascii) (s t : string) :
  split sep (s ++ String sep t) = (split sep s ++ split sep t)%list.
Proof.
  induction s as [| c s IH]; cbn [append split].
  - rewrite Ascii.eqb_refl. reflexivity.
  - destruct (Ascii.eqb c sep); [rewrite IH; reflexivity|].
    rewrite IH. pose proof (split_not_empty sep s) as Hne.
    destruct (split sep s) as [| piece pieces]; [contradiction | reflexivity].
Qed.

Lemma commaFree_cons (c : ascii) (s : string) :
  commaFree (String c s) = true ->
  Ascii.eqb c "," = false /\ commaFree s = true.
Proof.
  unfold commaFree. cbn [str_includes String.prefix].
  destruct (ascii_dec "," c) as [<- | Hne].
  - destruct s; discriminate.
  - intros H. split; [|exact H].
    apply Ascii.eqb_neq. congruence.
Qed.

Lemma split_commaFree (s : string) :
  commaFree s = true -> split "," s = [s].
Proof.
  induction s as [| c s IH]; [reflexivity|].
  intros Hfree. apply commaFree_cons in Hfree. destruct Hfree as [Hc Hs].
  cbn [split]. rewrite Hc, (IH Hs). reflexivity.
Qed.

Lemma split_pieces_commaFree (s : string) :
  Forall (fun piece => commaFree piece = true) (split "," s).
Proof.
  induction s as [| c s IH]; cbn [split].
  - repeat constructor.
  - destruct (Ascii.eqb_spec c ",") as [-> | Hne].
    + constructor; [reflexivity | exact IH].
    + destruct (split "," s) as [| piece pieces]; [repeat constructor|].
      * unfold commaFree. cbn [str_includes String.prefix].
        destruct (ascii_dec "," c); [congruence | reflexivity].
      * inversion IH as [| ? ? Hp Hps]; subst. constructor; [|assumption].
        unfold commaFree in *. cbn [str_includes String.prefix].
        destruct (ascii_dec "," c); [congruence | exact Hp].
Qed.

Lemma parseIds_comma (s t : string) :
  parseIds (s ++ "," ++ t) = (parseIds s ++ parseIds t)%list.
Proof.
  unfold parseIds. change ("," ++ t)%string with (String "," t).
  rewrite split_at_separator. apply filter_app.
Qed.

Lemma parseIds_one (s : string) :
  truthy_string s = true -> commaFree s = true -> parseIds s = [s].
Proof.
  intros Hs Hfree. unfold parseIds. rewrite (split_commaFree s Hfree).
  cbn [filter]. rewrite Hs. reflexivity.
Qed.

(** X17. The identifiers read from the parameter are never empty and
    never hold a comma; empty pieces (a leading, trailing or doubled comma)
    are dropped; and a list of identifiers that are not empty and hold no
    comma, joined with commas as the comparison dialog does, is read back
    unchanged. *)
Theorem X17_ids_parameter_round_trip (p s t : string) (ids : list string) :
  Forall (fun piece => truthy_string piece = true /\ commaFree piece = true)
    (parseIds p)
  /\ parseIds (s ++ "," ++ t) = (parseIds s ++ parseIds t)%list
  /\ (Forall (fun x => truthy_string x = true /\ commaFree x = true) ids ->
      parseIds (idsParameter ids) = ids).
Proof.
  split; [|split].
  - unfold parseIds. apply Forall_forall. intros piece Hpiece.
    apply filter_In in Hpiece. destruct Hpiece as [Hin Hne].
    split; [assumption|].
    pose proof (split_pieces_commaFree p) as Hall.
    rewrite Forall_forall in Hall. apply Hall. assumption.
  - apply parseIds_comma.
  - unfold idsParameter. induction 1 as [| x rest [Hx Hfree] Hrest IH];
      [reflexivity|].
    destruct rest as [| y rest].
    + cbn [join]. apply parseIds_one; assumption.
    + change (join "," (x :: y :: rest)) with (x ++ "," ++ join "," (y :: rest)).
      rewrite parseIds_comma, IH, (parseIds_one x Hx Hfree). reflexivity.
Qed.

(** ** Selecting two universities to compare *)

Lemma includes_false (l : list string) (x : string) :
  includes l x = false <-> ~ In x l.
Proof.
  rewrite <- includes_In. destruct (includes l x); split; congruence.
Qed.

Lemma remove_value_In (l : list string) (v x : string) :
  In x (filter (fun uid => negb (String.eqb uid v)) l) <-> In x l /\ x <> v.
Proof.
  rewrite filter_In, negb_true_iff, String.eqb_neq. reflexivity.
Qed.

Lemma handleCompareSelect_invariant (sel : list string) (i : string) :
  NoDup sel /\ (List.length sel <= 2)%nat ->
  NoDup (handleCompareSelect sel i)
  /\ (List.length (handleCompareSelect sel i) <= 2)%nat.
Proof.
  intros [Hnd Hlen]. unfold handleCompareSelect.
  destruct (includes sel i) eqn:Hin.
  - split; [apply NoDup_filter; assumption|].
    pose proof (filter_length_le (fun uid => negb (String.eqb uid i)) sel). lia.
  - apply includes_false in Hin.
    destruct (Nat.ltb_spec (List.length sel) 2) as [Hshort | Hfull].
    + split.
      * apply NoDup_app; [assumption | repeat constructor; intros [] |].
        intros x Hx [<- | []]. contradiction.
      * rewrite length_app. cbn [List.length]. lia.
    + destruct sel as [| a [| b [| c rest]]]; cbn [List.length] in *; try lia.
      cbn [nth]. split; [|cbn [List.length]; lia].
      constructor; [|repeat constructor; intros []].
      intros [-> | []]. apply Hin. right; left; reflexivity.
Qed.

Lemma selection_reachable_invariant (clicks : list string) :
  NoDup (fold_left handleCompareSelect clicks [])
  /\ (List.length (fold_left handleCompareSelect clicks []) <= 2)%nat.
Proof.
  assert (Hgen : forall sel,
             NoDup sel /\ (List.length sel <= 2)%nat ->
             NoDup (fold_left handleCompareSelect clicks sel)
             /\ (List.length (fold_left handleCompareSelect clicks sel) <= 2)%nat).
  { induction clicks as [| i clicks IH]; intros sel Hinv; [exact Hinv|].
    cbn [fold_left]. apply IH, handleCompareSelect_invariant. exact Hinv. }
  apply Hgen. split; [constructor | cbn [List.length]; lia].
Qed.

(** X18. Whatever the user clicks, starting from an empty selection, the
    selection for comparison never holds more than two identifiers and
    never holds one twice. *)
Theorem X18_selection_holds_at_most_two_distinct (clicks : list string) :
  NoDup (fold_left handleCompareSelect clicks [])
  /\ (List.length (fold_left handleCompareSelect clicks []) <= 2)%nat.
Proof.
  apply selection_reachable_invariant.
Qed.

(** X19. A click toggles: after it the identifier clicked is selected
    exactly when it was not before.  While fewer than two are selected, or
    when the click deselects, the other identifiers stay as they were; with
    two selected, clicking a third drops the one selected first. *)
Theorem X19_click_toggles_the_selection (sel : list string) (i : string) :
  (In i (handleCompareSelect sel i) <-> ~ In i sel)
  /\ (forall x, x <> i -> In i sel \/ (List.length sel < 2)%nat ->
        (In x (handleCompareSelect sel i) <-> In x sel))
  /\ (forall a b, a <> i -> b <> i ->
        handleCompareSelect [a; b] i = [b; i]).
Proof.
  clear universities toLowerCase localeCompare getFilterOptions.
  unfold handleCompareSelect. split; [|split].
  - destruct (includes sel i) eqn:Hin.
    + apply includes_In in Hin. rewrite remove_value_In. tauto.
    + apply includes_false in Hin.
      destruct (Nat.ltb (List.length sel) 2).
      * rewrite in_app_iff. cbn [In]. tauto.
      * cbn [In]. tauto.
  - intros x Hx Hcase. destruct (includes sel i) eqn:Hin.
    + rewrite remove_value_In. tauto.
    + apply includes_false in Hin. destruct Hcase as [Hcase | Hcase]; [contradiction|].
      apply Nat.ltb_lt in Hcase. rewrite Hcase, in_app_iff. cbn [In].
      split; [intros [H | [H | []]]; [assumption | congruence] | auto].
  - intros a b Ha Hb.
    assert (Hin : includes [a; b] i = false).
    { apply includes_false. intros [H | [H | []]]; congruence. }
    rewrite Hin. reflexivity.
Qed.


(** ** What each filter asks of a record *)

Lemma geq_iff (a b : Q) : geq a b = true <-> b <= a.
Proof. apply Qle_bool_iff. Qed.

Lemma leq_iff (a b : Q) : leq a b = true <-> a <= b.
Proof. apply Qle_bool_iff. Qed.

(** X25. The range filters are inclusive bounds: a record in the filtered
    result has its tuition, year, acceptance rate and employment rate at or
    above every minimum and at or below every maximum the request sets,
    and, when the request sets a ranking bound, has a ranking that meets
    it. *)
Theorem X25_range_filters_are_inclusive (fs : UniversityFilters) (u : University) :
  In u (filterUniversities fs) ->
  (forall lo, minTuition fs = Some lo -> lo <= tuitionFee u)
  /\ (forall hi, maxTuition fs = Some hi -> tuitionFee u <= hi)
  /\ (forall lo, minRanking fs = Some lo ->
        exists r, ranking u = Some r /\ lo <= r)
  /\ (forall hi, maxRanking fs = Some hi ->
        exists r, ranking u = Some r /\ r <= hi)
  /\ (forall lo, minYear fs = Some lo -> lo <= establishedYear u)
  /\ (forall hi, maxYear fs = Some hi -> establishedYear u <= hi)
  /\ (forall lo, minAcceptanceRate fs = Some lo -> lo <= acceptanceRate u)
  /\ (forall hi, maxAcceptanceRate fs = Some hi -> acceptanceRate u <= hi)
  /\ (forall lo, minEmploymentRate fs = Some lo -> lo <= employmentRate u).
Proof.
  intros Hin. apply filterUniversities_spec in Hin. destruct Hin as [_ Hall].
  unfold satisfiesAll, satisfies in Hall.
  destruct Hall as (_ & _ & _ & Hmint & Hmaxt & Hminr & Hmaxr & Hminy & Hmaxy
                    & _ & Hmina & Hmaxa & _ & _ & Hmine & _).
  repeat split.
  - intros lo E. rewrite E in Hmint. apply geq_iff, (Hmint eq_refl).
  - intros hi E. rewrite E in Hmaxt. apply leq_iff, (Hmaxt eq_refl).
  - intros lo E. rewrite E in Hminr. specialize (Hminr eq_refl).
    unfold rankingAtLeast in Hminr. destruct (ranking u) as [r|]; [|discriminate].
    exists r. split; [reflexivity | apply geq_iff, Hminr].
  - intros hi E. rewrite E in Hmaxr. specialize (Hmaxr eq_refl).
    unfold rankingAtMost in Hmaxr. destruct (ranking u) as [r|]; [|discriminate].
    exists r. split; [reflexivity | apply leq_iff, Hmaxr].
  - intros lo E. rewrite E in Hminy. apply geq_iff, (Hminy eq_refl).
  - intros hi E. rewrite E in Hmaxy. apply leq_iff, (Hmaxy eq_refl).
  - intros lo E. rewrite E in Hmina. apply geq_iff, (Hmina eq_refl).
  - intros hi E. rewrite E in Hmaxa. apply leq_iff, (Hmaxa eq_refl).
  - intros lo E. rewrite E in Hmine. apply geq_iff, (Hmine eq_refl).
Qed.

Lemma includes_campus_In (l : list CampusType) (x : CampusType) :
  includes_campus l x = true -> In x l.
Proof.
  unfold includes_campus. rewrite existsb_exists. intros (y & Hy & E).
  destruct x, y; try discriminate; assumption.
Qed.

Lemma includes_research_In (l : list ResearchOutput) (x : ResearchOutput) :
  includes_research l x = true -> In x l.
Proof.
  unfold includes_research. rewrite existsb_exists. intros (y & Hy & E).
  destruct x, y; try discriminate; assumption.
Qed.

(** X26. The list filters ask for membership, and the programs filter for
    one program in common: a record in the filtered result has its country,
    city, campus type and research output in the list the request gives
    for it when that list is not empty, offers at least one of the programs
    of a programs list that is not empty, and has a scholarship when
    [scholarshipOnly] is true. *)
Theorem X26_list_filters_ask_for_membership (fs : UniversityFilters) (u : University) :
  In u (filterUniversities fs) ->
  (forall l, countries fs = Some l -> l <> [] -> In (country u) l)
  /\ (forall l, cities fs = Some l -> l <> [] -> In (city u) l)
  /\ (forall l, f_programs fs = Some l -> l <> [] ->
        exists program, In program l /\ In program (programs u))
  /\ (forall l, campusTypes fs = Some l -> l <> [] -> In (campusType u) l)
  /\ (forall l, f_researchOutput fs = Some l -> l <> [] ->
        In (researchOutput u) l)
  /\ (scholarshipOnly fs = Some true -> scholarshipAvailable u = true).
Proof.
  intros Hin. apply filterUniversities_spec in Hin. destruct Hin as [_ Hall].
  unfold satisfiesAll, satisfies in Hall.
  destruct Hall as (_ & Hco & Hci & _ & _ & _ & _ & _ & _
                    & Hpr & _ & _ & Hca & Hsc & _ & Hre).
  repeat split.
  - intros l E Hne. rewrite E in Hco. destruct l as [| x l]; [congruence|].
    apply includes_In, (Hco eq_refl).
  - intros l E Hne. rewrite E in Hci. destruct l as [| x l]; [congruence|].
    apply includes_In, (Hci eq_refl).
  - intros l E Hne. rewrite E in Hpr. destruct l as [| x l]; [congruence|].
    specialize (Hpr eq_refl). unfold offersAny, some in Hpr. cbn [get] in Hpr.
    apply existsb_exists in Hpr. destruct Hpr as (program & Hp & Hhas).
    exists program. split; [assumption | apply includes_In; assumption].
  - intros l E Hne. rewrite E in Hca. destruct l as [| x l]; [congruence|].
    apply includes_campus_In, (Hca eq_refl).
  - intros l E Hne. rewrite E in Hre. destruct l as [| x l]; [congruence|].
    apply includes_research_In, (Hre eq_refl).
  - intros E. rewrite E in Hsc. apply (Hsc eq_refl).
Qed.

(** ** The size of a page *)




End UniFinder.

(** ** Trimming and truncating *)













(** ** Slugs *)

Lemma word_or_hyphen_not_space (c : ascii) :
  isWord c || isHyphen c = true -> isWhiteSpace c = false.
Proof.
  destruct c as [[] [] [] [] [] [] [] []]; vm_compute; congruence.
Qed.

Lemma hyphen_is_kept : isWord "-" || isHyphen "-" = true.
Proof. reflexivity. Qed.

Lemma removeOthers_class (s : string) :
  allChars (fun c => isWord c || isWhiteSpace c || isHyphen c) (removeOthers s) = true.
Proof.
  induction s as [| c s IH]; [reflexivity|].
  cbn [removeOthers].
  destruct (isWord c || isWhiteSpace c || isHyphen c) eqn:E; [|exact IH].
  cbn [allChars]. rewrite E, IH. reflexivity.
Qed.

Lemma replace_spaces_class (s : string) (inRun : bool) :
  allChars (fun c => isWord c || isWhiteSpace c || isHyphen c) s = true ->
  allChars (fun c => isWord c || isHyphen c)
    (replaceRuns isWhiteSpace inRun s) = true.
Proof.
  revert inRun. induction s as [| c s IH]; intros inRun; [reflexivity|].
  cbn [allChars replaceRuns]. rewrite andb_true_iff. intros [Hc Hs].
  destruct (isWhiteSpace c) eqn:Ec.
  - destruct inRun; [apply IH; assumption|].
    cbn [allChars]. rewrite hyphen_is_kept, IH by assumption. reflexivity.
  - cbn [allChars]. rewrite IH by assumption.
    destruct (isWord c); [reflexivity|]. cbn [orb] in *. rewrite Hc. reflexivity.
Qed.

Lemma replace_hyphens_class (s : string) (inRun : bool) :
  allChars (fun c => isWord c || isHyphen c) s = true ->
  allChars (fun c => isWord c || isHyphen c)
    (replaceRuns isHyphen inRun s) = true.
Proof.
  revert inRun. induction s as [| c s IH]; intros inRun; [reflexivity|].
  cbn [allChars replaceRuns]. rewrite andb_true_iff. intros [Hc Hs].
  destruct (isHyphen c) eqn:Ec.
  - destruct inRun; [apply IH; assumption|].
    cbn [allChars]. rewrite hyphen_is_kept, IH by assumption. reflexivity.
  - cbn [allChars]. rewrite Ec, Hc, IH by assumption. reflexivity.
Qed.

Lemma no_space_trimStart (s : string) :
  allChars (fun c => isWord c || isHyphen c) s = true -> trimStart s = s.
Proof.
  destruct s as [| c s]; [reflexivity|].
  cbn [allChars trimStart]. rewrite andb_true_iff. intros [Hc _].
  rewrite (word_or_hyphen_not_space c Hc). reflexivity.
Qed.

Lemma no_space_trimEnd (s : string) :
  allChars (fun c => isWord c || isHyphen c) s = true -> trimEnd s = s.
Proof.
  induction s as [| c s IH]; [reflexivity|].
  cbn [allChars trimEnd]. rewrite andb_true_iff. intros [Hc Hs].
  rewrite (IH Hs). destruct s; [|reflexivity].
  rewrite (word_or_hyphen_not_space c Hc). reflexivity.
Qed.

Lemma no_space_trim (s : string) :
  allChars (fun c => isWord c || isHyphen c) s = true -> trim s = s.
Proof.
  intros H. unfold trim. rewrite (no_space_trimStart s H). apply no_space_trimEnd, H.
Qed.

Lemma hyphen_prefix (c : ascii) (s : string) :
  String.prefix "-" (String c s) = isHyphen c.
Proof.
  cbn [String.prefix]. unfold isHyphen.
  destruct (ascii_dec "-" c) as [<- | Hne].
  - destruct s; reflexivity.
  - symmetry. apply Ascii.eqb_neq. congruence.
Qed.

Lemma double_hyphen_prefix (c : ascii) (s : string) :
  String.prefix "--" (String c s) = isHyphen c && String.prefix "-" s.
Proof.
  cbn [String.prefix]. unfold isHyphen.
  destruct (ascii_dec "-" c) as [<- | Hne].
  - reflexivity.
  - assert (E : Ascii.eqb c "-" = false) by (apply Ascii.eqb_neq; congruence).
    rewrite E. reflexivity.
Qed.

Lemma includes_double_hyphen (c : ascii) (s : string) :
  str_includes (String c s) "--"
  = (isHyphen c && String.prefix "-" s) || str_includes s "--".
Proof.
  cbn [str_includes]. rewrite double_hyphen_prefix.
  destruct (isHyphen c && String.prefix "-" s); reflexivity.
Qed.

Lemma replace_hyphens_single (s : string) (inRun : bool) :
  str_includes (replaceRuns isHyphen inRun s) "--" = false
  /\ (inRun = true -> String.prefix "-" (replaceRuns isHyphen inRun s) = false).
Proof.
  revert inRun. induction s as [| c s IH]; intros inRun; [split; reflexivity|].
  cbn [replaceRuns]. destruct (isHyphen c) eqn:Ec.
  - destruct inRun; [apply IH|].
    destruct (IH true) as [Hno Hhead]. split; [|discriminate].
    rewrite includes_double_hyphen, Hno, (Hhead eq_refl).
    rewrite andb_false_r. reflexivity.
  - destruct (IH false) as [Hno _]. split.
    + rewrite includes_double_hyphen, Hno, Ec. reflexivity.
    + intros _. rewrite hyphen_prefix. exact Ec.
Qed.

Lemma removeOthers_nothing (s : string) :
  allChars (fun c => isWord c || isHyphen c) s = true -> removeOthers s = s.
Proof.
  induction s as [| c s IH]; [reflexivity|].
  cbn [allChars removeOthers]. rewrite andb_true_iff. intros [Hc Hs].
  rewrite (IH Hs). pose proof (word_or_hyphen_not_space c Hc) as Hw.
  destruct (isWord c), (isWhiteSpace c), (isHyphen c); try discriminate; reflexivity.
Qed.

Lemma replace_spaces_nothing (s : string) (inRun : bool) :
  allChars (fun c => isWord c || isHyphen c) s = true ->
  replaceRuns isWhiteSpace inRun s = s.
Proof.
  revert inRun. induction s as [| c s IH]; intros inRun; [reflexivity|].
  cbn [allChars replaceRuns]. rewrite andb_true_iff. intros [Hc Hs].
  rewrite (word_or_hyphen_not_space c Hc), (IH false Hs). reflexivity.
Qed.

Lemma replace_hyphens_nothing (s : string) (inRun : bool) :
  str_includes s "--" = false ->
  (inRun = true -> String.prefix "-" s = false) ->
  replaceRuns isHyphen inRun s = s.
Proof.
  revert inRun. induction s as [| c s IH]; intros inRun Hno Hhead; [reflexivity|].
  rewrite includes_double_hyphen in Hno. apply orb_false_iff in Hno.
  destruct Hno as [Hpair Hno]. cbn [replaceRuns].
  destruct (isHyphen c) eqn:Ec.
  - destruct inRun.
    + specialize (Hhead eq_refl). rewrite hyphen_prefix in Hhead. congruence.
    + cbn [andb] in Hpair. rewrite (IH true Hno (fun _ => Hpair)).
      unfold isHyphen in Ec. apply Ascii.eqb_eq in Ec. subst c. reflexivity.
  - rewrite (IH false Hno); [reflexivity | discriminate].
Qed.

(** X28. A slug holds word characters and hyphens only, so no white space,
    and never two hyphens in a row (it may begin or end with a hyphen);
    and making a slug of a slug gives the slug back when lower-casing
    leaves it as it is. *)
Theorem X28_slug_alphabet_and_hyphens (toLowerCase : string -> string)
    (text : string) :
  let slug := generateSlug toLowerCase text in
  allChars (fun c => isWord c || isHyphen c) slug = true
  /\ str_includes slug "--" = false
  /\ (toLowerCase slug = slug -> generateSlug toLowerCase slug = slug).
Proof.
  cbv zeta. unfold generateSlug.
  set (spaced := replaceRuns isWhiteSpace false (removeOthers (toLowerCase text))).
  assert (Hclass : allChars (fun c => isWord c || isHyphen c)
                     (replaceRuns isHyphen false spaced) = true).
  { apply replace_hyphens_class, replace_spaces_class, removeOthers_class. }
  rewrite (no_space_trim _ Hclass).
  destruct (replace_hyphens_single spaced false) as [Hno _].
  split; [exact Hclass | split; [exact Hno|]].
  intros Hlower. rewrite Hlower.
  rewrite (removeOthers_nothing _ Hclass), (replace_spaces_nothing _ false Hclass).
  rewrite (replace_hyphens_nothing _ false Hno) by discriminate.
  apply no_space_trim, Hclass.
Qed.

(** ** The page buttons *)

Lemma pageNum_offset (page totalPages : Z) :
  exists first,
    (1 <= totalPages ->
     1 <= first /\ first + Z.min totalPages 7 - 1 <= totalPages
     /\ (1 <= page <= totalPages -> first <= page < first + Z.min totalPages 7))%Z
    /\ forall i, pageNum page totalPages i = (first + i)%Z.
Proof.
  unfold pageNum.
  destruct (Z.leb_spec totalPages 7);
    [exists 1%Z; split; [lia | intros; lia]|].
  destruct (Z.leb_spec page 4);
    [exists 1%Z; split; [lia | intros; lia]|].
  destruct (Z.geb_spec page (totalPages - 3));
    [exists (totalPages - 6)%Z | exists (page - 3)%Z]; split; intros; lia.
Qed.

Lemma consecutive_NoDup (first : Z) (l : list nat) :
  NoDup l -> NoDup (map (fun i => (first + Z.of_nat i)%Z) l).
Proof.
  induction 1 as [| i l Hi Hnd IH]; cbn [map]; constructor; [|exact IH].
  intros Hin. apply in_map_iff in Hin. destruct Hin as (j & Hj & Hin).
  assert (j = i) by lia. subst j. contradiction.
Qed.

(** X21. When there is more than one page and the current page is one of
    them, the page buttons show [min totalPages 7] consecutive page
    numbers, all between 1 and [totalPages], each once, and the current
    page is among them. *)
Theorem X21_page_buttons_window (page totalPages : Z) :
  (1 < totalPages)%Z -> (1 <= page <= totalPages)%Z ->
  List.length (pageButtons page totalPages) = Z.to_nat (Z.min totalPages 7)
  /\ (exists first,
        pageButtons page totalPages
        = map (fun i => (first + Z.of_nat i)%Z)
              (seq 0 (Z.to_nat (Z.min totalPages 7))))
  /\ Forall (fun b => (1 <= b <= totalPages)%Z) (pageButtons page totalPages)
  /\ In page (pageButtons page totalPages)
  /\ NoDup (pageButtons page totalPages).
Proof.
  intros Hmany Hpage.
  destruct (pageNum_offset page totalPages) as (first & Hfirst & Hnum).
  destruct (Hfirst ltac:(lia)) as (Hlo & Hhi & Hcur). specialize (Hcur Hpage).
  assert (Hshape : pageButtons page totalPages
                   = map (fun i => (first + Z.of_nat i)%Z)
                         (seq 0 (Z.to_nat (Z.min totalPages 7)))).
  { unfold pageButtons. apply map_ext. intros i. apply Hnum. }
  split; [unfold pageButtons; rewrite length_map, length_seq; reflexivity|].
  split; [exists first; exact Hshape|].
  rewrite Hshape. split; [|split].
  - apply Forall_forall. intros b Hb. apply in_map_iff in Hb.
    destruct Hb as (i & <- & Hi). apply in_seq in Hi. lia.
  - apply in_map_iff. exists (Z.to_nat (page - first)).
    split; [lia | apply in_seq; lia].
  - apply consecutive_NoDup, seq_NoDup.
Qed.

(** ** The checkboxes of the filter panel *)

Lemma remove_absent_value (l : list string) (v : string) :
  ~ In v l -> filter (fun x => negb (String.eqb x v)) l = l.
Proof.
  induction l as [| y l IH]; cbn [filter In]; intros Hv; [reflexivity|].
  destruct (String.eqb_spec y v) as [-> | _]; cbn [negb].
  - exfalso. apply Hv. left; reflexivity.
  - rewrite IH; [reflexivity|]. intros H. apply Hv. right; exact H.
Qed.

Lemma handleMultiSelect_values (current : option (list string)) (value : string) :
  get [] (handleMultiSelect current value)
  = if includes (get [] current) value
    then filter (fun v => negb (String.eqb v value)) (get [] current)
    else (get [] current ++ [value])%list.
Proof.
  unfold handleMultiSelect.
  change (match current with Some l => l | None => [] end) with (get [] current).
  destruct (includes (get [] current) value).
  - destruct (filter _ (get [] current)); reflexivity.
  - destruct (get [] current); reflexivity.
Qed.

(** X22. Ticking a checkbox of the filter panel toggles its value in the
    list of the field and leaves the other values alone; the list handed on
    is never empty (an empty list is handed on as no filter), a list
    without repetition stays one, and ticking a box that was not ticked and
    then unticking it gives back the field as it was. *)
Theorem X22_checkbox_toggles_a_value (current : option (list string))
    (value : string) :
  handleMultiSelect current value <> Some []
  /\ (In value (get [] (handleMultiSelect current value))
      <-> ~ In value (get [] current))
  /\ (forall x, x <> value ->
        (In x (get [] (handleMultiSelect current value)) <-> In x (get [] current)))
  /\ (NoDup (get [] current) -> NoDup (get [] (handleMultiSelect current value)))
  /\ (~ In value (get [] current) -> current <> Some [] ->
      handleMultiSelect (handleMultiSelect current value) value = current).
Proof.
  split; [|split; [|split; [|split]]].
  - unfold handleMultiSelect.
    match goal with |- (if (0 <? List.length ?l)%nat then _ else _) <> _ =>
      destruct l; cbn [List.length Nat.ltb Nat.leb]; discriminate end.
  - rewrite handleMultiSelect_values.
    destruct (includes (get [] current) value) eqn:Hin.
    + apply includes_In in Hin. rewrite remove_value_In. tauto.
    + apply includes_false in Hin. rewrite in_app_iff. cbn [In]. tauto.
  - intros x Hx. rewrite handleMultiSelect_values.
    destruct (includes (get [] current) value) eqn:Hin.
    + rewrite remove_value_In. tauto.
    + rewrite in_app_iff. cbn [In].
      split; [intros [H | [H | []]]; [assumption | congruence] | auto].
  - intros Hnd. rewrite handleMultiSelect_values.
    destruct (includes (get [] current) value) eqn:Hin.
    + apply NoDup_filter. assumption.
    + apply includes_false in Hin.
      apply NoDup_app; [assumption | repeat constructor; intros [] |].
      intros x Hx [<- | []]. contradiction.
  - intros Hout Hne.
    assert (Hfirst : handleMultiSelect current value
                     = Some (get [] current ++ [value])%list).
    { unfold handleMultiSelect.
      change (match current with Some l => l | None => [] end) with (get [] current).
      rewrite (proj2 (includes_false _ _) Hout).
      destruct (get [] current); reflexivity. }
    rewrite Hfirst. unfold handleMultiSelect.
    assert (Hnow : includes (get [] current ++ [value]) value = true).
    { apply includes_In, in_or_app. right; left; reflexivity. }
    rewrite Hnow, filter_app, (remove_absent_value _ _ Hout).
    cbn [filter]. rewrite String.eqb_refl. cbn [negb]. rewrite app_nil_r.
    destruct current as [[| x l] |]; [congruence | reflexivity | reflexivity].
Qed.

(** ** The two classifiers *)

Lemma less_iff (a b : Q) : less a b = true <-> a < b.
Proof.
  unfold less. rewrite negb_true_iff. split.
  - intros H. apply Qnot_le_lt. intros Hle. apply Qle_bool_iff in Hle. congruence.
  - intros H. destruct (Qle_bool b a) eqn:E; [|reflexivity].
    apply Qle_bool_iff in E. exfalso. lra.
Qed.

Lemma less_false_iff (a b : Q) : less a b = false <-> b <= a.
Proof.
  unfold less. rewrite negb_false_iff. apply Qle_bool_iff.
Qed.

(** X23. The acceptance categories are four bands of the rate that do not
    overlap: below 10, from 10 to below 30, from 30 to below 50, and 50 or
    more. *)
Theorem X23_acceptance_category_bands (rate : Q) :
  (getAcceptanceCategory rate = "Highly Selective" <-> rate < 10 # 1)
  /\ (getAcceptanceCategory rate = "Very Selective"
      <-> 10 # 1 <= rate /\ rate < 30 # 1)
  /\ (getAcceptanceCategory rate = "Selective"
      <-> 30 # 1 <= rate /\ rate < 50 # 1)
  /\ (getAcceptanceCategory rate = "Moderately Selective" <-> 50 # 1 <= rate).
Proof.
  unfold getAcceptanceCategory.
  destruct (less rate (10 # 1)) eqn:E1;
    [apply less_iff in E1 | apply less_false_iff in E1;
     destruct (less rate (30 # 1)) eqn:E2;
     [apply less_iff in E2 | apply less_false_iff in E2;
      destruct (less rate (50 # 1)) eqn:E3;
      [apply less_iff in E3 | apply less_false_iff in E3]]];
    repeat split; intros; try discriminate; try lra;
    match goal with H : _ /\ _ |- _ => destruct H; lra end.
Qed.

Lemma truthy_number_iff (r : Q) : truthy_number r = true <-> ~ r == 0.
Proof.
  unfold truthy_number. rewrite negb_true_iff. split.
  - intros H E. apply Qeq_bool_iff in E. congruence.
  - intros H. destruct (Qeq_bool r 0) eqn:E; [|reflexivity].
    apply Qeq_bool_iff in E. contradiction.
Qed.

(** X24. The ranking colour tells the unranked from the ranked and the
    ranked by band: the grey of the unranked is given to a missing ranking
    and to 0 and to nothing else, and a ranking that is not 0 is gold up to
    10, blue above 10 up to 50, green above 50 up to 100 and grey above
    100. *)
Theorem X24_ranking_colour_bands (ranking : option Q) :
  (getRankingColor ranking = "text-gray-500"
   <-> ranking = None \/ exists r, ranking = Some r /\ r == 0)
  /\ (forall r, ranking = Some r -> ~ r == 0 ->
        (getRankingColor ranking = "text-yellow-600 font-bold" <-> r <= 10 # 1)
        /\ (getRankingColor ranking = "text-blue-600 font-semibold"
            <-> 10 # 1 < r /\ r <= 50 # 1)
        /\ (getRankingColor ranking = "text-green-600"
            <-> 50 # 1 < r /\ r <= 100 # 1)
        /\ (getRankingColor ranking = "text-gray-600" <-> 100 # 1 < r)).
Proof.
  split.
  - destruct ranking as [r|]; cbn [getRankingColor]; [|tauto].
    destruct (truthy_number r) eqn:Et; cbn [negb].
    + apply truthy_number_iff in Et.
      destruct (leq r (10 # 1)); [|destruct (leq r (50 # 1)); [|destruct (leq r (100 # 1))]];
        (split; [discriminate|]); intros [H | (r' & H & H0)];
        try discriminate; injection H as <-; contradiction.
    + split; [|reflexivity]. intros _. right. exists r. split; [reflexivity|].
      destruct (Qeq_dec r 0) as [E | E]; [exact E|].
      apply truthy_number_iff in E. congruence.
  - intros r -> Hr. cbn [getRankingColor].
    rewrite (proj2 (truthy_number_iff r) Hr). cbn [negb]. unfold leq.
    destruct (Qle_bool r (10 # 1)) eqn:E1;
      [apply Qle_bool_iff in E1
      | assert (H1 : 10 # 1 < r)
          by (apply Qnot_le_lt; intros H; apply Qle_bool_iff in H; congruence);
        destruct (Qle_bool r (50 # 1)) eqn:E2;
        [apply Qle_bool_iff in E2
        | assert (H2 : 50 # 1 < r)
            by (apply Qnot_le_lt; intros H; apply Qle_bool_iff in H; congruence);
          destruct (Qle_bool r (100 # 1)) eqn:E3;
          [apply Qle_bool_iff in E3
          | assert (H3 : 100 # 1 < r)
              by (apply Qnot_le_lt; intros H; apply Qle_bool_iff in H; congruence)]]];
      repeat split; intros; try discriminate; try lra;
      match goal with H : _ /\ _ |- _ => destruct H; lra end.
Qed.

(** ** The statements on concrete catalogs *)

Lemma C1_filter_conjunctive_witness :
  separateDimensions tuitionBand scholarshipRequest = true
  /\ (In (sample "x" (18000 # 1) None true)
        (filterUniversities catalog2 ascii_toLowerCase
           (bothRequests tuitionBand scholarshipRequest))
      <-> In (sample "x" (18000 # 1) None true)
            (filterUniversities catalog2 ascii_toLowerCase tuitionBand)
          /\ In (sample "x" (18000 # 1) None true)
               (filterUniversities catalog2 ascii_toLowerCase scholarshipRequest)).
Proof.
  split; [reflexivity|].
  apply (C1_filter_conjunctive catalog2 ascii_toLowerCase tuitionBand
           scholarshipRequest (sample "x" (18000 # 1) None true)).
  reflexivity.
Defined.

(** The repeated identifier: two identifiers are supplied, one record is
    found, and the answer is NotFound, not InvalidArgument. *)
Lemma C3_repeated_identifier_counterexample :
  In "a" (map id catalog3)
  /\ parseIds "a,a" = ["a"; "a"]
  /\ status (GET catalog3 (Some "a,a")) = NotFound
  /\ status (GET catalog3 (Some "a,a")) <> InvalidArgument.
Proof.
  repeat split; try (vm_compute; auto; fail).
  vm_compute. discriminate.
Qed.

Lemma C3_compare_failures_witness :
  NoDup (map id catalog3)
  /\ status (GET catalog3 (Some "a")) = InvalidArgument
  /\ status (GET catalog3 (Some "a,z")) = NotFound
  /\ status (GET catalog3 (Some "a,a")) = NotFound.
Proof.
  assert (Hnd : NoDup (map id catalog3)).
  { repeat constructor; simpl; intuition discriminate. }
  split; [exact Hnd|].
  split; [|split].
  - apply (proj1 (proj2 (C3_compare_failures catalog3 (Some "a") Hnd)) "a" eq_refl).
    vm_compute. discriminate.
  - apply (proj2 (proj2 (C3_compare_failures catalog3 (Some "a,z") Hnd))
             "a,z" "a" "z" eq_refl eq_refl).
    right; left. simpl. intuition discriminate.
  - apply (proj2 (proj2 (C3_compare_failures catalog3 (Some "a,a") Hnd))
             "a,a" "a" "a" eq_refl eq_refl).
    right; right. reflexivity.
Defined.

(** A limit of 3/2 passes the schema; page 2 then holds two records, more
    than the limit.  A page of 3/2 over a one-record catalog holds that
    record, more than [max 0 (total - (page - 1) * limit)] = 1/2. *)
Lemma C4_fractional_counterexample :
  let fs := paged (2 # 1) (3 # 2) in
  let r := getUniversities catalog3 sampleOptions ascii_toLowerCase
             ascii_localeCompare fs in
  let fs' := paged (3 # 2) (1 # 1) in
  let r' := getUniversities catalog1 sampleOptions ascii_toLowerCase
              ascii_localeCompare fs' in
  UniversityFiltersSchema (2026 # 1) fs = true
  /\ map id (data r) = ["b"; "c"]
  /\ ~ inject_Z (Z.of_nat (List.length (data r))) <= limit fs
  /\ UniversityFiltersSchema (2026 # 1) fs' = true
  /\ map id (data r') = ["a"]
  /\ ~ inject_Z (Z.of_nat (List.length (data r')))
       <= Qmax 0 (inject_Z (Z.of_nat (total (pagination r')))
                  - (page fs' - 1) * limit fs').
Proof.
  cbv zeta. repeat split; try reflexivity.
  - vm_compute. intros H. apply H. reflexivity.
  - vm_compute. intros H. apply H. reflexivity.
Qed.

Lemma C4_pagination_of_whole_pages_witness :
  let fs := paged (2 # 1) (2 # 1) in
  let ordered := sortUniversities ascii_toLowerCase ascii_localeCompare
                   (filterUniversities catalog3 ascii_toLowerCase fs)
                   (sortBy fs) (sortOrder fs) in
  let r := getUniversities catalog3 sampleOptions ascii_toLowerCase
             ascii_localeCompare fs in
  (1 <= 2)%Z /\ page fs == inject_Z 2 /\ limit fs == inject_Z 2
  /\ total (pagination r) = List.length ordered
  /\ ((totalPages (pagination r) - 1) * 2 < Z.of_nat (List.length ordered)
      <= totalPages (pagination r) * 2)%Z
  /\ data r = firstn (Z.to_nat 2) (skipn (Z.to_nat ((2 - 1) * 2)) ordered)
  /\ (Z.of_nat (List.length (data r)) <= 2)%Z
  /\ (Z.of_nat (List.length (data r))
      <= Z.max 0 (Z.of_nat (List.length ordered) - (2 - 1) * 2))%Z
  /\ ((totalPages (pagination r) < 2)%Z -> data r = []).
Proof.
  cbv zeta.
  split; [discriminate|]. split; [reflexivity|]. split; [reflexivity|].
  apply (C4_pagination_of_whole_pages catalog3 sampleOptions ascii_toLowerCase
           ascii_localeCompare (paged (2 # 1) (2 # 1)) 2 2);
    [discriminate | discriminate | reflexivity | reflexivity].
Defined.

Lemma C5_ranking_bound_excludes_unranked_witness :
  (minRanking topTen <> None \/ maxRanking topTen <> None)
  /\ ranking (sample "a" (100 # 1) None true) = None
  /\ ~ In (sample "a" (100 # 1) None true)
         (filterUniversities catalog3 ascii_toLowerCase topTen).
Proof.
  assert (Hbound : minRanking topTen <> None \/ maxRanking topTen <> None)
    by (right; discriminate).
  split; [exact Hbound|]. split; [reflexivity|].
  exact (C5_ranking_bound_excludes_unranked catalog3 ascii_toLowerCase topTen
           (sample "a" (100 # 1) None true) Hbound eq_refl).
Defined.

Lemma C6_compare_metrics_witness :
  let B := sample "b" (200 # 1) (Some (5 # 1)) false in
  let C := sample "c" (300 # 1) (Some (1 # 1)) true in
  let c := mkUniversityComparison (B, C) (compareMetrics B C) in
  (forall u r, In u catalog3 -> ranking u = Some r -> 0 < r)
  /\ GET catalog3 (Some "c,b") = json (ComparisonBody c) OK
  /\ tuitionDifference (comparison c) = Qabs (tuitionFee B - tuitionFee C)
  /\ rankingDifference (comparison c) = Some (Qabs ((5 # 1) - (1 # 1)))
  /\ 0 <= employmentRateDifference (comparison c).
Proof.
  cbv zeta.
  assert (Hpos : forall u r, In u catalog3 -> ranking u = Some r -> 0 < r).
  { intros u r [<- | [<- | [<- | []]]] H; inversion H; reflexivity. }
  assert (Hget : GET catalog3 (Some "c,b")
                 = json (ComparisonBody
                           (mkUniversityComparison
                              (sample "b" (200 # 1) (Some (5 # 1)) false,
                               sample "c" (300 # 1) (Some (1 # 1)) true)
                              (compareMetrics
                                 (sample "b" (200 # 1) (Some (5 # 1)) false)
                                 (sample "c" (300 # 1) (Some (1 # 1)) true))))
                        OK)
    by reflexivity.
  split; [exact Hpos|]. split; [exact Hget|].
  destruct (C6_compare_metrics catalog3 (Some "c,b") _ Hpos Hget)
    as (_ & _ & Htuition & _ & _ & Hranking & _ & _ & Hemployment & _).
  split; [exact Htuition|]. split; [exact Hranking | exact Hemployment].
Defined.

Lemma C7_compare_symmetric_witness :
  NoDup (map id catalog3)
  /\ "b" <> "c" /\ In "b" (map id catalog3) /\ In "c" (map id catalog3)
  /\ parseIds "b,c" = ["b"; "c"] /\ parseIds "c,b" = ["c"; "b"]
  /\ exists c1 c2,
       GET catalog3 (Some "b,c") = json (ComparisonBody c1) OK
       /\ GET catalog3 (Some "c,b") = json (ComparisonBody c2) OK
       /\ tuitionDifference (comparison c1) = tuitionDifference (comparison c2)
       /\ rankingDifference (comparison c1) = rankingDifference (comparison c2)
       /\ acceptanceRateDifference (comparison c1)
          = acceptanceRateDifference (comparison c2)
       /\ employmentRateDifference (comparison c1)
          = employmentRateDifference (comparison c2)
       /\ c_universities c1 = c_universities c2.
Proof.
  assert (Hnd : NoDup (map id catalog3)).
  { repeat constructor; simpl; intuition discriminate. }
  assert (Hbc : "b" <> "c") by discriminate.
  assert (Hb : In "b" (map id catalog3)) by (simpl; auto).
  assert (Hc : In "c" (map id catalog3)) by (simpl; auto).
  repeat (split; [first [assumption | reflexivity]|]).
  exact (C7_compare_symmetric catalog3 "b,c" "c,b" "b" "c" Hnd Hbc Hb Hc
           eq_refl eq_refl).
Defined.

Lemma C8_ascending_descending_reverse_witness :
  numeric by_tuitionFee = true
  /\ distinctKeys (numericKey ascii_toLowerCase by_tuitionFee) catalog3
  /\ sortUniversities ascii_toLowerCase ascii_localeCompare catalog3
       (Some by_tuitionFee) desc
     = rev (sortUniversities ascii_toLowerCase ascii_localeCompare catalog3
              (Some by_tuitionFee) asc)
  /\ sortUniversities ascii_toLowerCase ascii_localeCompare
       (sortUniversities ascii_toLowerCase ascii_localeCompare catalog3
          (Some by_tuitionFee) asc)
       (Some by_tuitionFee) desc
     = rev (sortUniversities ascii_toLowerCase ascii_localeCompare catalog3
              (Some by_tuitionFee) asc).
Proof.
  assert (Hd : distinctKeys (numericKey ascii_toLowerCase by_tuitionFee) catalog3).
  { repeat constructor; intros H; vm_compute in H; discriminate. }
  split; [reflexivity|]. split; [exact Hd|].
  exact (C8_ascending_descending_reverse ascii_toLowerCase ascii_localeCompare
           by_tuitionFee catalog3 eq_refl Hd).
Defined.

Lemma C9_total_without_filters_witness :
  noActiveFilter noFilters = true
  /\ total (pagination (getUniversities catalog3 sampleOptions ascii_toLowerCase
                          ascii_localeCompare noFilters))
     = List.length catalog3.
Proof.
  split; [reflexivity|].
  exact (C9_total_without_filters catalog3 sampleOptions ascii_toLowerCase
           ascii_localeCompare noFilters eq_refl).
Defined.

Lemma C10_filter_preserves_catalog_order_witness :
  sortBy topTen = None
  /\ subsequence (filterUniversities catalog3 ascii_toLowerCase topTen) catalog3
  /\ subsequence
       (data (getUniversities catalog3 sampleOptions ascii_toLowerCase
                ascii_localeCompare topTen))
       catalog3.
Proof.
  split; [reflexivity|].
  destruct (C10_filter_preserves_catalog_order catalog3 sampleOptions
              ascii_toLowerCase ascii_localeCompare topTen) as (Hsub & _ & Hpage).
  split; [exact Hsub | exact (Hpage eq_refl)].
Defined.

(** ** The two worked examples of the specification *)

(** Tuition between 0 and 20000 with [scholarshipOnly], over two records of
    tuition 18000 of which only the first offers a scholarship. *)
Example filter_tuition_scholarship_example :
  filterUniversities catalog2 ascii_toLowerCase
    (bothRequests tuitionBand scholarshipRequest)
  = [sample "x" (18000 # 1) None true].
Proof. reflexivity. Qed.

(** Rankings [null, 5, 1, null] sorted ascending: 1, 5, then the two records
    without a ranking in their original order. *)
Example sort_ranking_ascending_example :
  map id
    (sortUniversities ascii_toLowerCase ascii_localeCompare
       [ sample "n1" (1 # 1) None true; sample "r5" (1 # 1) (Some (5 # 1)) true;
         sample "r1" (1 # 1) (Some (1 # 1)) true; sample "n2" (1 # 1) None true ]
       (Some by_ranking) asc)
  = ["r1"; "r5"; "n1"; "n2"].
Proof. vm_compute. reflexivity. Qed.

(** ** The further properties on concrete inputs *)

Lemma catalog3_ids_unique : NoDup (map id catalog3).
Proof. repeat constructor; simpl; intuition discriminate. Defined.

Lemma X2_single_lookup_agrees_witness :
  NoDup (map id catalog3)
  /\ getUniversitiesByIds catalog3 ["b"]
     = match getUniversityById catalog3 "b" with Some u => [u] | None => [] end.
Proof.
  split; [exact catalog3_ids_unique|].
  exact (proj2 (X2_single_lookup_agrees catalog3 "b") catalog3_ids_unique).
Defined.

Lemma X3_lookup_ignores_order_and_repeats_witness :
  (forall x, In x ["b"; "c"] <-> In x ["c"; "b"; "c"])
  /\ getUniversitiesByIds catalog3 ["b"; "c"]
     = getUniversitiesByIds catalog3 ["c"; "b"; "c"]
  /\ subsequence (getUniversitiesByIds catalog3 ["b"; "c"]) catalog3.
Proof.
  assert (Hsame : forall x, In x ["b"; "c"] <-> In x ["c"; "b"; "c"])
    by (intros x; simpl; tauto).
  split; [exact Hsame|].
  exact (X3_lookup_ignores_order_and_repeats catalog3 ["b"; "c"] ["c"; "b"; "c"] Hsame).
Defined.

Lemma X4_lookup_one_record_per_identifier_witness :
  NoDup (map id catalog3)
  /\ NoDup (map id (getUniversitiesByIds catalog3 ["c"; "z"; "c"]))
  /\ (List.length (getUniversitiesByIds catalog3 ["c"; "z"; "c"]) <= 3)%nat.
Proof.
  split; [exact catalog3_ids_unique|].
  destruct (X4_lookup_one_record_per_identifier catalog3 ["c"; "z"; "c"]
              catalog3_ids_unique) as (Hunique & _ & Hlen).
  split; [exact Hunique | exact Hlen].
Defined.

Lemma X6_sort_orders_by_key_witness :
  numeric by_tuitionFee = true
  /\ StronglySorted
       (fun a b => numericKey ascii_toLowerCase by_tuitionFee a
                   <= numericKey ascii_toLowerCase by_tuitionFee b)
       (sortUniversities ascii_toLowerCase ascii_localeCompare catalog3
          (Some by_tuitionFee) asc)
  /\ StronglySorted
       (fun a b => numericKey ascii_toLowerCase by_tuitionFee b
                   <= numericKey ascii_toLowerCase by_tuitionFee a)
       (sortUniversities ascii_toLowerCase ascii_localeCompare catalog3
          (Some by_tuitionFee) desc).
Proof.
  split; [reflexivity|].
  exact (X6_sort_orders_by_key ascii_toLowerCase ascii_localeCompare catalog3
           by_tuitionFee eq_refl).
Defined.

Lemma X7_sort_keeps_ties_in_input_order_witness :
  numeric by_establishedYear = true
  /\ filter (fun u => Qeq_bool (numericKey ascii_toLowerCase by_establishedYear u)
                        (1900 # 1))
       (sortUniversities ascii_toLowerCase ascii_localeCompare catalog3
          (Some by_establishedYear) desc)
     = filter (fun u => Qeq_bool (numericKey ascii_toLowerCase by_establishedYear u)
                          (1900 # 1))
         catalog3.
Proof.
  split; [reflexivity|].
  exact (X7_sort_keeps_ties_in_input_order ascii_toLowerCase ascii_localeCompare
           catalog3 by_establishedYear desc (1900 # 1) eq_refl).
Defined.

Lemma X8_sort_twice_is_sort_once_witness :
  numeric by_ranking = true
  /\ sortUniversities ascii_toLowerCase ascii_localeCompare
       (sortUniversities ascii_toLowerCase ascii_localeCompare catalog3
          (Some by_ranking) desc)
       (Some by_ranking) desc
     = sortUniversities ascii_toLowerCase ascii_localeCompare catalog3
         (Some by_ranking) desc.
Proof.
  split; [reflexivity|].
  exact (X8_sort_twice_is_sort_once ascii_toLowerCase ascii_localeCompare catalog3
           by_ranking desc eq_refl).
Defined.

Lemma X10_pages_partition_the_result_witness :
  (1 <= 2)%Z /\ limit (paged (1 # 1) (2 # 1)) == inject_Z 2
  /\ List.concat
       (map (fun p => data (getUniversities catalog3 sampleOptions ascii_toLowerCase
                              ascii_localeCompare
                              (handlePageChange (paged (1 # 1) (2 # 1))
                                 (inject_Z (Z.of_nat p)))))
            (seq 1 (Z.to_nat (totalPages
                                (pagination
                                   (getUniversities catalog3 sampleOptions
                                      ascii_toLowerCase ascii_localeCompare
                                      (paged (1 # 1) (2 # 1))))))))
     = sortUniversities ascii_toLowerCase ascii_localeCompare
         (filterUniversities catalog3 ascii_toLowerCase (paged (1 # 1) (2 # 1)))
         (sortBy (paged (1 # 1) (2 # 1))) (sortOrder (paged (1 # 1) (2 # 1))).
Proof.
  assert (HL : (1 <= 2)%Z) by discriminate.
  assert (Hlimit : limit (paged (1 # 1) (2 # 1)) == inject_Z 2) by reflexivity.
  split; [exact HL|]. split; [exact Hlimit|].
  exact (X10_pages_partition_the_result catalog3 sampleOptions ascii_toLowerCase
           ascii_localeCompare (paged (1 # 1) (2 # 1)) 2 HL Hlimit).
Defined.

Lemma X11_all_pages_but_the_last_are_full_witness :
  let r := getUniversities catalog3 sampleOptions ascii_toLowerCase
             ascii_localeCompare (paged (1 # 1) (2 # 1)) in
  (1 <= 1)%Z /\ (1 <= 2)%Z
  /\ page (paged (1 # 1) (2 # 1)) == inject_Z 1
  /\ limit (paged (1 # 1) (2 # 1)) == inject_Z 2
  /\ (0 <= totalPages (pagination r))%Z
  /\ ((1 < totalPages (pagination r))%Z -> Z.of_nat (List.length (data r)) = 2%Z).
Proof.
  cbv zeta.
  assert (HP : (1 <= 1)%Z) by discriminate.
  assert (HL : (1 <= 2)%Z) by discriminate.
  assert (Hpage : page (paged (1 # 1) (2 # 1)) == inject_Z 1) by reflexivity.
  assert (Hlimit : limit (paged (1 # 1) (2 # 1)) == inject_Z 2) by reflexivity.
  destruct (X11_all_pages_but_the_last_are_full catalog3 sampleOptions
              ascii_toLowerCase ascii_localeCompare (paged (1 # 1) (2 # 1)) 1 2
              HP HL Hpage Hlimit) as (Hpos & _ & Hfull & _).
  repeat (split; [assumption|]). exact Hfull.
Defined.

Lemma X13_avgTuitionFee_within_the_fees_witness :
  catalog3 <> []
  /\ (forall u, In u catalog3 -> inject_Z 100 <= tuitionFee u <= inject_Z 300)
  /\ (100 <= avgTuitionFee (getStatistics catalog3) <= 300)%Z.
Proof.
  assert (Hne : catalog3 <> []) by discriminate.
  assert (Hall : forall u, In u catalog3 ->
                           inject_Z 100 <= tuitionFee u <= inject_Z 300).
  { intros u [<- | [<- | [<- | []]]]; split; vm_compute; discriminate. }
  split; [exact Hne|]. split; [exact Hall|].
  exact (X13_avgTuitionFee_within_the_fees catalog3 100 300 Hne Hall).
Defined.

Lemma X16_compare_succeeds_exactly_when_witness :
  NoDup (map id catalog3)
  /\ (status (GET catalog3 (Some "b,c")) = OK
      <-> exists p a b,
            Some "b,c" = Some p /\ parseIds p = [a; b] /\ a <> b
            /\ In a (map id catalog3) /\ In b (map id catalog3)).
Proof.
  split; [exact catalog3_ids_unique|].
  exact (X16_compare_succeeds_exactly_when catalog3 (Some "b,c") catalog3_ids_unique).
Defined.

Lemma X17_ids_parameter_round_trip_witness :
  Forall (fun x => truthy_string x = true /\ commaFree x = true) ["b"; "c"]
  /\ parseIds (idsParameter ["b"; "c"]) = ["b"; "c"].
Proof.
  assert (Hok : Forall (fun x => truthy_string x = true /\ commaFree x = true)
                  ["b"; "c"])
    by (repeat constructor).
  split; [exact Hok|].
  exact (proj2 (proj2 (X17_ids_parameter_round_trip "" "" "" ["b"; "c"])) Hok).
Defined.


Lemma X21_page_buttons_window_witness :
  (1 < 20)%Z /\ (1 <= 5 <= 20)%Z
  /\ In 5%Z (pageButtons 5 20)
  /\ NoDup (pageButtons 5 20)
  /\ Forall (fun b => (1 <= b <= 20)%Z) (pageButtons 5 20).
Proof.
  assert (Hmany : (1 < 20)%Z) by reflexivity.
  assert (Hpage : (1 <= 5 <= 20)%Z) by (split; discriminate).
  destruct (X21_page_buttons_window 5 20 Hmany Hpage)
    as (_ & _ & Hrange & Hcur & Hnd).
  split; [exact Hmany|]. split; [exact Hpage|].
  split; [exact Hcur|]. split; [exact Hnd | exact Hrange].
Defined.

Lemma X22_checkbox_toggles_a_value_witness :
  ~ In "x" (get [] (Some ["y"]))
  /\ Some ["y"] <> Some []
  /\ handleMultiSelect (handleMultiSelect (Some ["y"]) "x") "x" = Some ["y"].
Proof.
  assert (Hout : ~ In "x" (get [] (Some ["y"])))
    by (simpl; intuition discriminate).
  assert (Hne : Some ["y"] <> (Some [] : option (list string))) by discriminate.
  split; [exact Hout|]. split; [exact Hne|].
  destruct (X22_checkbox_toggles_a_value (Some ["y"]) "x")
    as (_ & _ & _ & _ & Hback).
  exact (Hback Hout Hne).
Defined.

Lemma X25_range_filters_are_inclusive_witness :
  In (sample "x" (18000 # 1) None true)
     (filterUniversities catalog2 ascii_toLowerCase tuitionBand)
  /\ (forall hi, maxTuition tuitionBand = Some hi ->
        tuitionFee (sample "x" (18000 # 1) None true) <= hi).
Proof.
  assert (Hin : In (sample "x" (18000 # 1) None true)
                  (filterUniversities catalog2 ascii_toLowerCase tuitionBand))
    by (left; reflexivity).
  split; [exact Hin|].
  destruct (X25_range_filters_are_inclusive catalog2 ascii_toLowerCase tuitionBand
              (sample "x" (18000 # 1) None true) Hin) as (_ & Hmax & _).
  exact Hmax.
Defined.

Lemma X26_list_filters_ask_for_membership_witness :
  let fs := mkFilters None (Some ["Utopia"; "Atlantis"]) None None None None None
              None None (Some ["Law"; "Medicine"]) None None None (Some true) None
              None (1 # 1) (12 # 1) None asc in
  let u := sample "c" (300 # 1) (Some (1 # 1)) true in
  In u (filterUniversities catalog3 ascii_toLowerCase fs)
  /\ In (country u) ["Utopia"; "Atlantis"]
  /\ (exists program, In program ["Law"; "Medicine"] /\ In program (programs u))
  /\ scholarshipAvailable u = true.
Proof.
  cbv zeta.
  set (fs := mkFilters None (Some ["Utopia"; "Atlantis"]) None None None None None
               None None (Some ["Law"; "Medicine"]) None None None (Some true) None
               None (1 # 1) (12 # 1) None asc).
  set (u := sample "c" (300 # 1) (Some (1 # 1)) true).
  assert (Hin : In u (filterUniversities catalog3 ascii_toLowerCase fs))
    by (right; left; reflexivity).
  destruct (X26_list_filters_ask_for_membership catalog3 ascii_toLowerCase fs u Hin)
    as (Hcountry & _ & Hprogram & _ & _ & Hscholarship).
  split; [exact Hin|].
  split; [exact (Hcountry _ eq_refl ltac:(discriminate))|].
  split; [exact (Hprogram _ eq_refl ltac:(discriminate)) | exact (Hscholarship eq_refl)].
Defined.


Lemma X28_slug_alphabet_and_hyphens_witness :
  ascii_toLowerCase (generateSlug ascii_toLowerCase "Hello,  World")
  = generateSlug ascii_toLowerCase "Hello,  World"
  /\ generateSlug ascii_toLowerCase (generateSlug ascii_toLowerCase "Hello,  World")
     = generateSlug ascii_toLowerCase "Hello,  World".
Proof.
  assert (Hlower : ascii_toLowerCase (generateSlug ascii_toLowerCase "Hello,  World")
                   = generateSlug ascii_toLowerCase "Hello,  World")
    by reflexivity.
  split; [exact Hlower|].
  exact (proj2 (proj2 (X28_slug_alphabet_and_hyphens ascii_toLowerCase
                         "Hello,  World")) Hlower).
Defined.

